(** * Mandatory-subscription admin subsystem: channels, bots, membership gate

    Shallow embedding of
      - src/app/states/admin/channel.py        (dialog states)
      - src/app/dialog/handlers.py             (registration, toggle handlers)
      - src/app/dialog/getters.py              (detail views)
      - src/app/handlers/admin/check_sub_channel.py (membership gate)

    Python coroutines are modelled in a state-and-exception monad over an
    environment made of the dialog stack, the outside world (database rows,
    storage faults, the platform's membership endpoint) and the trace of
    effects performed so far. *)

From Stdlib Require Import ZArith List Ascii String Bool Lia.
From stdpp Require Import base option list strings gmap pretty.

Open Scope string_scope.
Open Scope list_scope.
Open Scope Z_scope.

(** ** Python strings

    A Python [str] is represented by its UTF-8 encoding, one [ascii] per
    byte. String literals of the source are kept byte for byte. *)

Module PyStr.

Definition bytes (l : list nat) : string :=
  fold_right (fun n s => String (ascii_of_nat n) s) EmptyString l.

Definition LF : string := bytes [10%nat].

(** Code points for which [str.isspace] holds, as UTF-8 encodings:
    U+0009..U+000D, U+001C..U+001F, U+0020, U+0085, U+00A0, U+1680,
    U+2000..U+200A, U+2028, U+2029, U+202F, U+205F, U+3000. *)
Definition whitespace : list string :=
  map bytes
    [ [9]; [10]; [11]; [12]; [13]; [28]; [29]; [30]; [31]; [32];
      [194; 133]; [194; 160]; [225; 154; 128];
      [226; 128; 128]; [226; 128; 129]; [226; 128; 130]; [226; 128; 131];
      [226; 128; 132]; [226; 128; 133]; [226; 128; 134]; [226; 128; 135];
      [226; 128; 136]; [226; 128; 137]; [226; 128; 138];
      [226; 128; 168]; [226; 128; 169]; [226; 128; 175];
      [226; 129; 159]; [227; 128; 128] ]%nat.

(** [drop_prefix p s] is [Some rest] when [s = p ++ rest]. *)
Fixpoint drop_prefix (p s : string) : option string :=
  match p with
  | EmptyString => Some s
  | String a p' =>
      match s with
      | EmptyString => None
      | String b s' => if Ascii.eqb a b then drop_prefix p' s' else None
      end
  end.

(** Remove one leading character of the set [cs], if there is one. *)
Fixpoint drop_one (cs : list string) (s : string) : option string :=
  match cs with
  | [] => None
  | c :: cs' =>
      match drop_prefix c s with
      | Some rest => Some rest
      | None => drop_one cs' s
      end
  end.

Fixpoint lstrip_fuel (n : nat) (cs : list string) (s : string) : string :=
  match n with
  | O => s
  | S n' =>
      match drop_one cs s with
      | Some rest => lstrip_fuel n' cs rest
      | None => s
      end
  end.

(** [s.lstrip(chars)]: every leading character that belongs to [cs] is
    removed. No character is empty, so [length s] rounds suffice. *)
Definition lstrip_chars (cs : list string) (s : string) : string :=
  lstrip_fuel (String.length s) cs s.

Definition rstrip_chars (cs : list string) (s : string) : string :=
  String.rev (lstrip_chars (map String.rev cs) (String.rev s)).

(** [s.strip()] *)
Definition strip (s : string) : string :=
  rstrip_chars whitespace (lstrip_chars whitespace s).

(** [s.lstrip("@")] *)
Definition lstrip_at (s : string) : string := lstrip_chars ["@"] s.

(** [str(n)] for an integer. *)
Definition of_Z (z : Z) : string := pretty z.

End PyStr.

Arguments PyStr.strip : simpl never.
Arguments PyStr.lstrip_at : simpl never.
Arguments PyStr.of_Z : simpl never.

(** ** Values held by the session scratch dictionary *)

(** The dictionary built by [handle_channel_forward]. *)
Record channel_dict := ChannelDict {
  cd_channel_name : string;
  cd_channel_id : Z;
  cd_channel_username : string
}.

Inductive value :=
| VNone
| VInt (z : Z)
| VStr (s : string)
| VDict (d : channel_dict).

(** Python truth value: [None], [0] and [""] are false; a dictionary with
    three keys is true. *)
Definition truthy (v : value) : bool :=
  match v with
  | VNone => false
  | VInt z => negb (z =? 0)
  | VStr s => negb (String.eqb s "")
  | VDict _ => true
  end.

(** [d.get(k)]: a missing key reads as [None]. *)
Definition dict_get (d : gmap string value) (k : string) : value :=
  default VNone (d !! k).

(** [x or y] on optional text. *)
Definition text_or (x : option string) (y : string) : string :=
  match x with
  | Some s => if String.eqb s "" then y else s
  | None => y
  end.

(** ** Dialog states (states/admin/channel.py) *)

Inductive StatesGroup := OPMenu | AddChannelState | AddBotState | BotMenu | ChannelMenu.

Inductive State :=
| OPMenu_menu
| AddChannelState_get_channel_data
| AddChannelState_get_channel_link
| AddBotState_get_bot_name
| AddBotState_get_bot_username
| AddBotState_get_bot_link
| BotMenu_menu
| BotMenu_delete_bot
| ChannelMenu_menu
| ChannelMenu_delete_channel.

Definition group (s : State) : StatesGroup :=
  match s with
  | OPMenu_menu => OPMenu
  | AddChannelState_get_channel_data | AddChannelState_get_channel_link => AddChannelState
  | AddBotState_get_bot_name | AddBotState_get_bot_username
  | AddBotState_get_bot_link => AddBotState
  | BotMenu_menu | BotMenu_delete_bot => BotMenu
  | ChannelMenu_menu | ChannelMenu_delete_channel => ChannelMenu
  end.

Definition group_eqb (g h : StatesGroup) : bool :=
  match g, h with
  | OPMenu, OPMenu | AddChannelState, AddChannelState | AddBotState, AddBotState
  | BotMenu, BotMenu | ChannelMenu, ChannelMenu => true
  | _, _ => false
  end.

(** ** Stored rows

    A channel row is read by position: [0] id, [1] name, [2] username,
    [3] status, [5] url; column [4] is never read by the code. A bot row:
    [0] name, [1] username, [2] status, [3] url. *)

Record ChannelRow := {
  channel_id : Z;
  channel_name : string;
  channel_username : string;
  channel_status : string;
  channel_col4 : string;
  channel_url : string
}.

Record BotRow := {
  bot_name : string;
  bot_username : string;
  bot_status : string;
  bot_url : string
}.

Definition set_channel_status (s : string) (r : ChannelRow) : ChannelRow :=
  {| channel_id := channel_id r; channel_name := channel_name r;
     channel_username := channel_username r; channel_status := s;
     channel_col4 := channel_col4 r; channel_url := channel_url r |}.

Definition set_bot_status (s : string) (r : BotRow) : BotRow :=
  {| bot_name := bot_name r; bot_username := bot_username r;
     bot_status := s; bot_url := bot_url r |}.


(** ** Incoming updates *)

Record Chat := {
  chat_id : Z;
  full_name : option string;
  username : option string
}.

Record Message := {
  text : option string;
  forward_from_chat : option Chat;
  from_user_id : Z
}.

(** ** The outside world

    [faults] schedules generic storage failures: every database call takes
    the head of the list, and fails when it is [true]. [chat_member] is the
    platform's membership endpoint, [None] when the query raises.
    [new_status] and [new_col4] are the column defaults given to a fresh
    channel or bot row. *)

Record World := {
  channels : list ChannelRow;
  bots : list BotRow;
  new_status : string;
  new_col4 : string;
  faults : list bool;
  chat_member : Z -> Z -> option string
}.

Definition with_channels (cs : list ChannelRow) (w : World) : World :=
  {| channels := cs; bots := bots w; new_status := new_status w;
     new_col4 := new_col4 w; faults := faults w; chat_member := chat_member w |}.

Definition with_bots (bs : list BotRow) (w : World) : World :=
  {| channels := channels w; bots := bs; new_status := new_status w;
     new_col4 := new_col4 w; faults := faults w; chat_member := chat_member w |}.

Definition with_faults (fs : list bool) (w : World) : World :=
  {| channels := channels w; bots := bots w; new_status := new_status w;
     new_col4 := new_col4 w; faults := fs; chat_member := chat_member w |}.

(** ** Effects *)

Inductive db_call :=
| GetChannel (k : value)
| AddChannel (id : Z) (name uname url : string)
| GetAllChannels
| UpdateChannelStatus (s : string) (k : value)
| DeleteChannel (k : value)
| GetBot (k : value)
| AddBot (name : string) (uname url : value)
| GetAllBots
| UpdateBotStatus (s : string) (k : value)
| DeleteBot (k : value).

Inductive event :=
| EvSetData (k : string) (v : value)
| EvSwitchTo (s : State)
| EvDone
| EvStart (s : State)
| EvDb (c : db_call)
| EvGetChatMember (chat user : Z)
| EvAnswer (not_sub_channels : list ChannelRow) (all_bots : list BotRow).

(** One entry of the dialog stack. *)
Record Context := {
  ctx_state : State;
  start_data : option (gmap string value);
  dialog_data : gmap string value
}.

Record Env := {
  stack : list Context;
  world : World;
  trace : list event
}.

Inductive exn := UniqueViolationError | Exception.

Inductive outcome (A : Type) :=
| Ret (a : A)
| Raise (x : exn).
Arguments Ret {A} a.
Arguments Raise {A} x.

Definition M (A : Type) : Type := Env -> outcome A * Env.

#[global] Instance M_ret : MRet M := fun A a e => (Ret a, e).

#[global] Instance M_bind : MBind M := fun A B f m e =>
  match m e with
  | (Ret a, e') => f a e'
  | (Raise x, e') => (Raise x, e')
  end.

Definition raise {A} (x : exn) : M A := fun e => (Raise x, e).

(** [try: m except Exception as x: h x] *)
Definition try_except {A} (m : M A) (h : exn -> M A) : M A := fun e =>
  match m e with
  | (Ret a, e') => (Ret a, e')
  | (Raise x, e') => h x e'
  end.

(** [try: m finally: f]: [f] runs however [m] ends; the way [m] ended is
    kept unless [f] itself raises. *)
Definition finally {A} (m : M A) (f : M unit) : M A := fun e =>
  match m e with
  | (r, e') =>
      match f e' with
      | (Ret _, e'') => (r, e'')
      | (Raise x, e'') => (Raise x, e'')
      end
  end.

Definition emit (ev : event) : M unit := fun e =>
  (Ret tt, {| stack := stack e; world := world e; trace := trace e ++ [ev] |}).

Definition put_stack (s : list Context) : M unit := fun e =>
  (Ret tt, {| stack := s; world := world e; trace := trace e |}).

Definition get_stack : M (list Context) := fun e => (Ret (stack e), e).

(** ** The dialog manager (transport layer)

    The manager keeps a stack of dialog contexts; every accessor works on the
    top one and raises when the stack is empty. *)

Definition current_context : M Context :=
  s ← get_stack;
  match s with
  | c :: _ => mret c
  | [] => raise Exception
  end.

(** [dialog_manager.dialog_data[k] = v] *)
Definition set_dialog_data (k : string) (v : value) : M unit :=
  s ← get_stack;
  match s with
  | c :: cs =>
      put_stack ({| ctx_state := ctx_state c; start_data := start_data c;
                    dialog_data := <[k := v]> (dialog_data c) |} :: cs);;
      emit (EvSetData k v)
  | [] => raise Exception
  end.

(** [dialog_manager.dialog_data.get(k)] *)
Definition get_dialog_data (k : string) : M value :=
  c ← current_context;
  mret (dict_get (dialog_data c) k).

(** [dialog_manager.start_data.get(k)]; a context started without data has
    [start_data = None], on which [.get] raises. *)
Definition get_start_data (k : string) : M value :=
  c ← current_context;
  match start_data c with
  | Some d => mret (dict_get d k)
  | None => raise Exception
  end.

(** [dialog_manager.switch_to(state)]: only inside the current group. *)
Definition switch_to (st : State) : M unit :=
  s ← get_stack;
  match s with
  | c :: cs =>
      if group_eqb (group (ctx_state c)) (group st) then
        put_stack ({| ctx_state := st; start_data := start_data c;
                      dialog_data := dialog_data c |} :: cs);;
        emit (EvSwitchTo st)
      else raise Exception
  | [] => raise Exception
  end.

(** [dialog_manager.done()]: the current context, with its scratch data, is
    dropped. *)
Definition done : M unit :=
  s ← get_stack;
  match s with
  | _ :: cs => put_stack cs;; emit EvDone
  | [] => raise Exception
  end.

(** [dialog_manager.start(state, data)]: a fresh context on top. *)
Definition start (st : State) (data : option (gmap string value)) : M unit :=
  s ← get_stack;
  put_stack ({| ctx_state := st; start_data := data; dialog_data := ∅ |} :: s);;
  emit (EvStart st).

(** ** The entity store

    Every database call is logged, then takes the next entry of the fault
    schedule. *)

Definition db {A} (c : db_call) (act : World -> outcome A * World) : M A := fun e =>
  let tr := trace e ++ [EvDb c] in
  let w := world e in
  match faults w with
  | true :: fs =>
      (Raise Exception, {| stack := stack e; world := with_faults fs w; trace := tr |})
  | false :: fs =>
      let (r, w') := act (with_faults fs w) in
      (r, {| stack := stack e; world := w'; trace := tr |})
  | [] =>
      let (r, w') := act w in
      (r, {| stack := stack e; world := w'; trace := tr |})
  end.

Definition channel_has (z : Z) (r : ChannelRow) : bool := channel_id r =? z.
Definition bot_has (u : string) (r : BotRow) : bool := String.eqb (bot_username r) u.

(** Modelled from the spec: the channel operations of
    src/app/database/queries/channels.py (class ChannelActions), which is not
    among the sources. [add] fails with a duplicate-key error when the
    identifier is present, [get] returns the entity or nothing, [get_all]
    the sequence of entities, [update_status] updates the entity or does
    nothing when it is absent, [delete] removes it if present. A key of the
    wrong type is refused by the driver; a null key matches no row. *)
Module ChannelActions.

Definition get_channel (k : value) : M (option ChannelRow) :=
  db (GetChannel k) (fun w =>
    match k with
    | VInt z => (Ret (List.find (channel_has z) (channels w)), w)
    | VNone => (Ret None, w)
    | _ => (Raise Exception, w)
    end).

Definition add_channel (id : Z) (name uname url : string) : M unit :=
  db (AddChannel id name uname url) (fun w =>
    match List.find (channel_has id) (channels w) with
    | Some _ => (Raise UniqueViolationError, w)
    | None =>
        (Ret tt,
         with_channels
           (channels w ++
              [{| channel_id := id; channel_name := name;
                  channel_username := uname; channel_status := new_status w;
                  channel_col4 := new_col4 w; channel_url := url |}]) w)
    end).

Definition get_all_channels : M (list ChannelRow) :=
  db GetAllChannels (fun w => (Ret (channels w), w)).

Definition update_rows (s : string) (z : Z) (rows : list ChannelRow) : list ChannelRow :=
  map (fun r => if channel_has z r then set_channel_status s r else r) rows.

Definition update_channel_status (s : string) (k : value) : M unit :=
  db (UpdateChannelStatus s k) (fun w =>
    match k with
    | VInt z => (Ret tt, with_channels (update_rows s z (channels w)) w)
    | VNone => (Ret tt, w)
    | _ => (Raise Exception, w)
    end).

Definition delete_channel (k : value) : M unit :=
  db (DeleteChannel k) (fun w =>
    match k with
    | VInt z =>
        (Ret tt, with_channels (List.filter (fun r => negb (channel_has z r)) (channels w)) w)
    | VNone => (Ret tt, w)
    | _ => (Raise Exception, w)
    end).

End ChannelActions.

(** Modelled from the spec: the bot operations of
    src/app/database/queries/bots.py (class BotActions), which is not among
    the sources; same contract as the channel operations, keyed by the
    handle. *)
Module BotActions.

Definition get_bot (k : value) : M (option BotRow) :=
  db (GetBot k) (fun w =>
    match k with
    | VStr u => (Ret (List.find (bot_has u) (bots w)), w)
    | VNone => (Ret None, w)
    | _ => (Raise Exception, w)
    end).

Definition add_bot (name : string) (uname url : value) : M unit :=
  db (AddBot name uname url) (fun w =>
    match uname, url with
    | VStr u, VStr l =>
        match List.find (bot_has u) (bots w) with
        | Some _ => (Raise UniqueViolationError, w)
        | None =>
            (Ret tt,
             with_bots
               (bots w ++
                  [{| bot_name := name; bot_username := u;
                      bot_status := new_status w; bot_url := l |}]) w)
        end
    | _, _ => (Raise Exception, w)
    end).

Definition get_all_bots : M (list BotRow) :=
  db GetAllBots (fun w => (Ret (bots w), w)).

Definition update_rows (s : string) (u : string) (rows : list BotRow) : list BotRow :=
  map (fun r => if bot_has u r then set_bot_status s r else r) rows.

Definition update_bot_status (s : string) (k : value) : M unit :=
  db (UpdateBotStatus s k) (fun w =>
    match k with
    | VStr u => (Ret tt, with_bots (update_rows s u (bots w)) w)
    | VNone => (Ret tt, w)
    | _ => (Raise Exception, w)
    end).

Definition delete_bot (k : value) : M unit :=
  db (DeleteBot k) (fun w =>
    match k with
    | VStr u =>
        (Ret tt, with_bots (List.filter (fun r => negb (bot_has u r)) (bots w)) w)
    | VNone => (Ret tt, w)
    | _ => (Raise Exception, w)
    end).

End BotActions.

(** The platform's membership endpoint, [bot.get_chat_member(chat, user)];
    the result is the [status] of the returned member. *)
Definition get_chat_member (chat user : Z) : M string := fun e =>
  let e' := {| stack := stack e; world := world e;
               trace := trace e ++ [EvGetChatMember chat user] |} in
  match chat_member (world e) chat user with
  | Some role => (Ret role, e')
  | None => (Raise Exception, e')
  end.

(** ** Event handlers (dialog/handlers.py) *)

(** [message.text] when it is true, that is present and not empty. *)
Definition nonempty_text (message : Message) : option string :=
  match text message with
  | Some t => if String.eqb t "" then None else Some t
  | None => None
  end.

Definition set_msg_type (variant : string) : M unit :=
  set_dialog_data "msg_type" (VStr variant).

(** An early [return] inside a [try] block is modelled by the flag the block
    yields: [true] when control goes on after the block. *)
Definition handle_channel_forward (message : Message) : M unit :=
  match forward_from_chat message with
  | None => set_msg_type "not_forwarded"
  | Some chat =>
      let channel_id := chat_id chat in
      go_on ← try_except
        (existing_channel ← ChannelActions.get_channel (VInt channel_id);
         match existing_channel with
         | Some _ =>
             set_msg_type "already_exists";;
             switch_to AddChannelState_get_channel_link;;
             mret false
         | None => mret true
         end)
        (fun _ => set_msg_type "error";; mret false);
      if go_on : bool then
        let channel_data :=
          {| cd_channel_name := text_or (full_name chat) "Unnamed Channel";
             cd_channel_id := channel_id;
             cd_channel_username := text_or (username chat) "" |} in
        set_dialog_data "channel_data" (VDict channel_data);;
        switch_to AddChannelState_get_channel_link
      else mret tt
  end.

(** [channel_data[k]], as evaluated for the arguments of the call and for
    the log lines of the handler: it raises unless [channel_data] is the
    stashed dictionary. *)
Definition channel_data_items (channel_data : value) : M channel_dict :=
  match channel_data with
  | VDict d => mret d
  | _ => raise Exception
  end.

Definition handle_channel_url_input (message : Message) : M unit :=
  match nonempty_text message with
  | None => set_msg_type "error_format"
  | Some t =>
      channel_data ← get_dialog_data "channel_data";
      if negb (truthy channel_data) then
        set_msg_type "error";;
        done;;
        start OPMenu_menu None
      else
        let channel_url := PyStr.strip t in
        finally
          (try_except
             (d ← channel_data_items channel_data;
              ChannelActions.add_channel (cd_channel_id d) (cd_channel_name d)
                (cd_channel_username d) channel_url)
             (fun x =>
                match x with
                | UniqueViolationError =>
                    channel_data_items channel_data;;
                    set_msg_type "already_exists"
                | Exception =>
                    channel_data_items channel_data;;
                    set_msg_type "error"
                end))
          (done;; start OPMenu_menu None)
  end.

Definition toggled (current_status : string) : string :=
  if String.eqb current_status "True" then "False" else "True".

Definition handle_toggle_channel_op_status : M unit :=
  channel_id ← get_dialog_data "channel_id";
  if negb (truthy channel_id) then mret tt
  else
    go_on ← try_except
      (channel_data ← ChannelActions.get_channel channel_id;
       match channel_data with
       | None => mret false
       | Some row =>
           let current_status := channel_status row in
           let new_status := toggled current_status in
           ChannelActions.update_channel_status new_status channel_id;;
           mret true
       end)
      (fun _ => mret true);
    if go_on : bool then switch_to ChannelMenu_menu else mret tt.

Definition handle_bot_username_input (message : Message) : M unit :=
  match nonempty_text message with
  | None => set_msg_type "error_format"
  | Some t =>
      let bot_username := PyStr.lstrip_at (PyStr.strip t) in
      go_on ← try_except
        (existing_bot ← BotActions.get_bot (VStr bot_username);
         match existing_bot with
         | Some _ => set_msg_type "already_exists";; mret false
         | None => mret true
         end)
        (fun _ => set_msg_type "error";; mret false);
      if go_on : bool then
        set_dialog_data "bot_username" (VStr bot_username);;
        switch_to AddBotState_get_bot_link
      else mret tt
  end.

Definition handle_bot_url_input (message : Message) : M unit :=
  match nonempty_text message with
  | None => set_msg_type "error_format"
  | Some t =>
      let bot_url := PyStr.strip t in
      set_dialog_data "bot_url" (VStr bot_url);;
      switch_to AddBotState_get_bot_name
  end.

Definition handle_bot_name_input (message : Message) : M unit :=
  match nonempty_text message with
  | None => set_msg_type "error_format"
  | Some t =>
      let bot_name := PyStr.strip t in
      bot_username ← get_dialog_data "bot_username";
      bot_url ← get_dialog_data "bot_url";
      if negb (truthy bot_username) || negb (truthy bot_url) then
        set_msg_type "error";;
        done;;
        start OPMenu_menu None
      else
        finally
          (try_except
             (BotActions.add_bot bot_name bot_username bot_url)
             (fun x =>
                match x with
                | UniqueViolationError => set_msg_type "already_exists"
                | Exception => set_msg_type "error"
                end))
          (done;; start OPMenu_menu None)
  end.

Definition handle_toggle_bot_op_status : M unit :=
  bot_username ← get_dialog_data "bot_username";
  if negb (truthy bot_username) then mret tt
  else
    go_on ← try_except
      (bot_data ← BotActions.get_bot bot_username;
       match bot_data with
       | None => mret false
       | Some row =>
           let current_status := bot_status row in
           let new_status := toggled current_status in
           BotActions.update_bot_status new_status bot_username;;
           mret true
       end)
      (fun _ => mret true);
    if go_on : bool then switch_to BotMenu_menu else mret tt.

(** ** Window getters (dialog/getters.py) *)


Definition get_add_bot_data : M (gmap string value) :=
  c ← current_context;
  mret {[ "msg_type" := default (VStr "start_msg") (dialog_data c !! "msg_type") ]}.

Definition op_button_label (is_in_op : bool) : string :=
  if is_in_op then "🚫 Убрать из ОП" else "➕ Добавить в ОП".

Definition status_line (is_in_op : bool) : string :=
  if is_in_op then "✅ Активен" else "❌ Неактивен".

Definition channel_info (row : ChannelRow) : string :=
  let is_in_op := String.eqb (channel_status row) "True" in
  "📢 <b>Полная информация о канале</b>" +:+ PyStr.LF +:+ PyStr.LF +:+
  "🆔 <b>ID:</b> <code>" +:+ PyStr.of_Z (channel_id row) +:+ "</code>" +:+ PyStr.LF +:+
  "📛 <b>Название:</b> " +:+ channel_name row +:+ PyStr.LF +:+
  "🔗 <b>Username:</b> @" +:+ text_or (Some (channel_username row)) "не указан" +:+ PyStr.LF +:+
  "📶 <b>Статус в ОП:</b> " +:+ status_line is_in_op +:+ PyStr.LF +:+
  "🔗 <b>Ссылка:</b> " +:+ channel_url row +:+ PyStr.LF.

Definition get_channel_info_data : M (gmap string string) :=
  channel_id ← get_start_data "channel_id";
  set_dialog_data "channel_id" channel_id;;
  channel_data ← ChannelActions.get_channel channel_id;
  match channel_data with
  | None =>
      mret {[ "channel_data" := "❌ Канал не найден"; "op_button" := "—" ]}
  | Some row =>
      let is_in_op := String.eqb (channel_status row) "True" in
      let op_button := op_button_label is_in_op in
      mret {[ "channel_data" := channel_info row; "op_button" := op_button ]}
  end.

Definition bot_info (row : BotRow) : string :=
  let is_in_op := String.eqb (bot_status row) "True" in
  "🤖 <b>Полная информация о боте</b>" +:+ PyStr.LF +:+ PyStr.LF +:+
  "📛 <b>Название:</b> " +:+ bot_name row +:+ PyStr.LF +:+
  "🔗 <b>Username:</b> @" +:+ bot_username row +:+ PyStr.LF +:+
  "📶 <b>Статус в ОП:</b> " +:+ status_line is_in_op +:+ PyStr.LF +:+
  "🔗 <b>Ссылка:</b> " +:+ bot_url row +:+ PyStr.LF.

Definition get_bot_info_data : M (gmap string string) :=
  bot_username ← get_start_data "bot_username";
  set_dialog_data "bot_username" bot_username;;
  bot_data ← BotActions.get_bot bot_username;
  match bot_data with
  | None =>
      mret {[ "bot_data" := "❌ Бот не найден"; "op_button" := "—" ]}
  | Some row =>
      let is_in_op := String.eqb (bot_status row) "True" in
      let op_button := op_button_label is_in_op in
      mret {[ "bot_data" := bot_info row; "op_button" := op_button ]}
  end.

(** ** Membership gate (handlers/admin/check_sub_channel.py) *)

Definition is_subscribed (status : string) : bool :=
  existsb (String.eqb status) ["member"; "administrator"; "creator"].

(** The [for channel in channel_data] loop; [not_sub_channels] accumulates. *)
Fixpoint gate_loop (user : Z) (channel_data : list ChannelRow)
    (not_sub_channels : list ChannelRow) : M (list ChannelRow) :=
  match channel_data with
  | [] => mret not_sub_channels
  | channel :: rest =>
      if String.eqb (channel_status channel) "True" then
        user_status ← get_chat_member (channel_id channel) user;
        if negb (is_subscribed user_status)
        then gate_loop user rest (not_sub_channels ++ [channel])
        else gate_loop user rest not_sub_channels
      else gate_loop user rest not_sub_channels
  end.

Definition check_channel_sub_message (message : Message) : M unit :=
  channel_data ← ChannelActions.get_all_channels;
  bot_actions ← BotActions.get_all_bots;
  not_sub_channels ← gate_loop (from_user_id message) channel_data [];
  emit (EvAnswer not_sub_channels bot_actions).

(** The callback variant; [call_from_user_id] is [call.from_user.id]. *)
Definition check_channel_sub_call (call_from_user_id : Z) : M unit :=
  channel_data ← ChannelActions.get_all_channels;
  bot_actions ← BotActions.get_all_bots;
  not_sub_channels ← gate_loop call_from_user_id channel_data [];
  emit (EvAnswer not_sub_channels bot_actions).

(** ** Further handlers (dialog/handlers.py) *)

(** [int(item_id)] is Python's integer parser, taken as the parameter
    [int_]; [None] stands for the ValueError it raises. *)
Definition handle_get_channel_info (int_ : string -> option Z) (item_id : string) : M unit :=
  match int_ item_id with
  | Some channel_id =>
      start ChannelMenu_menu (Some {[ "channel_id" := VInt channel_id ]})
  | None => mret tt
  end.

Definition handle_get_bot_info (item_id : string) : M unit :=
  start BotMenu_menu (Some {[ "bot_username" := VStr item_id ]}).

Definition handle_delete_channel : M unit :=
  channel_id ← get_dialog_data "channel_id";
  if negb (truthy channel_id) then start OPMenu_menu None
  else
    try_except (ChannelActions.delete_channel channel_id) (fun _ => mret tt);;
    start OPMenu_menu None.

Definition handle_delete_bot : M unit :=
  bot_username ← get_dialog_data "bot_username";
  if negb (truthy bot_username) then start OPMenu_menu None
  else
    try_except (BotActions.delete_bot bot_username) (fun _ => mret tt);;
    start OPMenu_menu None.

(** [f"{v}"]; Python's [str] of a dictionary is the parameter [str_dict]. *)
Definition format_value (str_dict : channel_dict -> string) (v : value) : string :=
  match v with
  | VNone => "None"
  | VInt z => PyStr.of_Z z
  | VStr s => s
  | VDict d => str_dict d
  end.

Definition handle_default_bot_url (str_dict : channel_dict -> string) : M unit :=
  bot_username ← get_dialog_data "bot_username";
  if negb (truthy bot_username) then mret tt
  else
    let bot_url := "https://t.me/" +:+ format_value str_dict bot_username in
    set_dialog_data "bot_url" (VStr bot_url);;
    switch_to AddBotState_get_bot_name.

(** ** The main menu getter (dialog/getters.py) *)

Record op_menu_data := {
  omd_channel_data : list ChannelRow;
  omd_bot_data : list BotRow;
  omd_msg_type : string;
  omd_has_channels : bool;
  omd_has_bots : bool
}.

(** [bool(rows)] *)
Definition nonempty {A} (rows : list A) : bool :=
  match rows with
  | [] => false
  | _ :: _ => true
  end.

Definition get_op_menu_data : M op_menu_data :=
  channels ← ChannelActions.get_all_channels;
  bots ← BotActions.get_all_bots;
  let msg_type :=
    if negb (nonempty channels) && negb (nonempty bots)
    then "not_found" else "start_msg" in
  mret {| omd_channel_data := channels; omd_bot_data := bots;
          omd_msg_type := msg_type;
          omd_has_channels := nonempty channels;
          omd_has_bots := nonempty bots |}.

(** ** Windows (dialog/dialogs.py) *)

(** The [Case] dictionary of the window of a state, selected by
    [msg_type]; empty for the windows whose text is not a [Case]. *)
Definition window_case (st : State) : gmap string string :=
  match st with
  | OPMenu_menu =>
      {[ "start_msg" := "Выберите действие";
         "not_found" := "Вы еще ничего не добавили" ]}
  | AddChannelState_get_channel_data =>
      {[ "start_msg" :=
           "🔗 Чтобы добавить канал или группу, перешлите любой пост с канала и добавьте бота в канал.";
         "not_forwarded" := "❌ Отправьте пост с канала!" ]}
  | AddChannelState_get_channel_link =>
      {[ "start_msg" := "🔗 Отправьте ссылку на канал";
         "error" := "❌ Произошла ошибка при добавлении канала!";
         "already_exists" := "⚠️ Канал уже существует!" ]}
  | AddBotState_get_bot_username =>
      {[ "start_msg" := "👤 Отправьте username бота (без @)";
         "error_format" := "❌ Отправьте текстовое сообщение с username бота!";
         "already_exists" := "⚠️ Бот с таким username уже существует!" ]}
  | AddBotState_get_bot_link =>
      {[ "start_msg" := "🔗 Отправьте ссылку на бота";
         "error_format" := "❌ Неправильный формат ссылки!" ]}
  | AddBotState_get_bot_name =>
      {[ "start_msg" := "📝 Отправьте отображаемое имя бота";
         "error_format" := "❌ Отправьте текстовое сообщение!" ]}
  | _ => ∅
  end.

(** The navigation buttons: [Start(state=st)] starts [st] without data,
    [SwitchTo(state=st)] switches the current dialog to [st]. *)
Definition Start (st : State) : M unit := start st None.
Definition SwitchTo (st : State) : M unit := switch_to st.

(** Buttons of the windows, by their [id]. *)
Definition back_to_op_menu : M unit := Start OPMenu_menu.
Definition add_channel_btn : M unit := Start AddChannelState_get_channel_data.
Definition add_bot_btn : M unit := Start AddBotState_get_bot_username.
Definition delete_channel_btn : M unit := SwitchTo ChannelMenu_delete_channel.
Definition delete_bot_btn : M unit := SwitchTo BotMenu_delete_bot.
Definition channel_cancel_delete : M unit := Start ChannelMenu_menu.
Definition bot_cancel_delete : M unit := SwitchTo BotMenu_menu.
Definition channel_confirm_delete : M unit := handle_delete_channel.
Definition bot_confirm_delete : M unit := handle_delete_bot.

(** [Button(Format("{op_button}"), id="toggle_op_status_btn", on_click=...)]
    of the two detail windows. Neither has a [when] condition: the button
    is shown with whatever label the getter returned, and a press runs the
    handler. *)
Definition channel_toggle_op_status_btn : M unit := handle_toggle_channel_op_status.
Definition bot_toggle_op_status_btn : M unit := handle_toggle_bot_op_status.

(** The [MessageInput] of the window of a state: the handler that receives
    every message sent while the window is shown. *)
Definition message_input (st : State) : option (Message -> M unit) :=
  match st with
  | AddChannelState_get_channel_data => Some handle_channel_forward
  | AddChannelState_get_channel_link => Some handle_channel_url_input
  | AddBotState_get_bot_username => Some handle_bot_username_input
  | AddBotState_get_bot_link => Some handle_bot_url_input
  | AddBotState_get_bot_name => Some handle_bot_name_input
  | _ => None
  end.

(** ** Dialogs and their registration (dialog/dialogs.py, dialog/__init__.py) *)

Inductive Dialog :=
| op_management_dialog
| add_channel_dialog
| channel_management_dialog
| add_bot_dialog
| bot_management_dialog.

(** The states of the windows of a dialog. *)
Definition windows (d : Dialog) : list State :=
  match d with
  | op_management_dialog => [OPMenu_menu]
  | add_channel_dialog =>
      [AddChannelState_get_channel_data; AddChannelState_get_channel_link]
  | channel_management_dialog => [ChannelMenu_menu; ChannelMenu_delete_channel]
  | add_bot_dialog =>
      [AddBotState_get_bot_username; AddBotState_get_bot_link; AddBotState_get_bot_name]
  | bot_management_dialog => [BotMenu_menu; BotMenu_delete_bot]
  end.

(** The dialogs [dialog_register] includes in its router. *)
Definition dialog_register : list Dialog :=
  [op_management_dialog; bot_management_dialog; channel_management_dialog].

(** * Verification *)

(** ** Vocabulary of the statements *)

Definition fresh_context (st : State) : Context :=
  {| ctx_state := st; start_data := None; dialog_data := ∅ |}.

Definition with_dialog_data (d : gmap string value) (c : Context) : Context :=
  {| ctx_state := ctx_state c; start_data := start_data c; dialog_data := d |}.

Definition with_state (st : State) (c : Context) : Context :=
  {| ctx_state := st; start_data := start_data c; dialog_data := dialog_data c |}.

Definition mk_env (s : list Context) (w : World) (t : list event) : Env :=
  {| stack := s; world := w; trace := t |}.

(** The state and the scratch dictionary of the current dialog. *)
Definition current_state (e : Env) : option State := ctx_state <$> head (stack e).

Definition scratch (e : Env) (k : string) : option value :=
  head (stack e) ≫= fun c => dialog_data c !! k.

(** The database calls of a trace, in order. *)
Definition db_calls (t : list event) : list db_call :=
  omap (fun ev => match ev with EvDb c => Some c | _ => None end) t.

(** *** Membership gate *)

Definition active (c : ChannelRow) : bool := String.eqb (channel_status c) "True".

(** An active channel for which the endpoint returns a role outside
    member, administrator, creator. *)
Definition unsatisfied (w : World) (user : Z) (c : ChannelRow) : bool :=
  active c &&
  match chat_member w (channel_id c) user with
  | Some role => negb (is_subscribed role)
  | None => false
  end.

Definition query_of (user : Z) (c : ChannelRow) : event :=
  EvGetChatMember (channel_id c) user.

(** Every active channel's query returns a role. *)
Definition endpoint_answers (w : World) (user : Z) (chans : list ChannelRow) : Prop :=
  forall c, In c chans -> active c = true ->
    exists role, chat_member w (channel_id c) user = Some role.

(** *** Channel registration *)

(** The statement on the forward step as the specification words it: after a
    forward of a known channel the flow shows "already_exists" in the URL
    state without stashing anything, and the URL step that follows attempts
    an [add] on that identifier, which leaves the stored rows alone. *)
Definition forward_duplicate_then_add (e : Env) (forwarded url : Message) (id : Z) : Prop :=
  let e1 := snd (handle_channel_forward forwarded e) in
  let e2 := snd (handle_channel_url_input url e1) in
  scratch e1 "msg_type" = Some (VStr "already_exists") /\
  current_state e1 = Some AddChannelState_get_channel_link /\
  scratch e1 "channel_data" = scratch e "channel_data" /\
  (exists name uname link, In (AddChannel id name uname link) (db_calls (trace e2))) /\
  channels (world e2) = channels (world e).

(** *** Final add step *)

(** What the final add step may do between the [add] call and the end of
    the flow: nothing on success, or one write of the discriminator. *)
Definition after_add (evs : list event) : Prop :=
  evs = [] \/
  evs = [EvSetData "msg_type" (VStr "already_exists")] \/
  evs = [EvSetData "msg_type" (VStr "error")].

(** The flow [rest] was opened from has ended in the main OP menu. *)
Definition back_in_menu (rest : list Context) (e : Env) : Prop :=
  stack e = fresh_context OPMenu_menu :: rest.

(** The statement on a duplicate-key error as the specification words it: the
    conversation is still in the state it was in, shows "already_exists",
    and the stored rows are those of before. *)
Definition stays_with_already_exists (before after : Env) : Prop :=
  current_state after = current_state before /\
  scratch after "msg_type" = Some (VStr "already_exists") /\
  channels (world after) = channels (world before) /\
  bots (world after) = bots (world before).

(** *** Bot registration, username step *)

(** The handle as the specification words it: the stripped input minus one
    leading "@". *)
Definition drop_one_at (s : string) : string :=
  match PyStr.drop_prefix "@" s with
  | Some rest => rest
  | None => s
  end.

Definition claimed_handle (t : string) : string := drop_one_at (PyStr.strip t).

Definition stores_claimed_handle (e : Env) (t : string) : Prop :=
  scratch (snd (handle_bot_username_input
                  {| text := Some t; forward_from_chat := None; from_user_id := 7 |} e))
    "bot_username" = Some (VStr (claimed_handle t)).

(** [n] times "@". *)
Fixpoint ats (n : nat) : string :=
  match n with
  | O => ""
  | S n' => String "@" (ats n')
  end.

(** *** Validation errors *)


(** What the handlers do instead: the discriminator of the current dialog
    is overwritten with [variant], and that is all. *)
Definition reprompt (variant : string) (c : Context) (rest : list Context) (e : Env)
    : outcome unit * Env :=
  (Ret tt,
   mk_env
     (with_dialog_data (<["msg_type" := VStr variant]> (dialog_data c)) c :: rest)
     (world e)
     (trace e ++ [EvSetData "msg_type" (VStr variant)])).

(** *** Detail views *)

(** [sub] occurs in [s]. *)
Definition contains (s sub : string) : Prop :=
  exists a b : string, s = a +:+ sub +:+ b.

(** A press on the toggle button that does nothing: the handler returns with
    the session and the world as they were, having at most looked the key
    up. *)
Definition toggle_is_inert (toggle : M unit) (lookup : list event) (e : Env) : Prop :=
  toggle e = (Ret tt, mk_env (stack e) (world e) (trace e ++ lookup)).

(** The toggle of the "not found" view as the specification words it:
    disabled, so that a press on it does nothing. *)
Definition disabled (btn : M unit) (e : Env) : Prop :=
  btn e = (Ret tt, e).

(** The same session by the time the store has come to hold [rows],
    respectively [rows] of bots. *)
Definition channels_become (rows : list ChannelRow) (e : Env) : Env :=
  mk_env (stack e) (with_channels rows (world e)) (trace e).

Definition bots_become (rows : list BotRow) (e : Env) : Env :=
  mk_env (stack e) (with_bots rows (world e)) (trace e).

(** *** Further vocabulary *)

(** The store part of the world is untouched. *)
Definition same_rows (before after : Env) : Prop :=
  channels (world after) = channels (world before) /\
  bots (world after) = bots (world before).

(** A computation that, however it ends, leaves the dialog stack and the
    stored rows as they were. *)
Definition keeps_session_and_rows {A} (m : M A) : Prop :=
  forall e : Env, stack (snd (m e)) = stack e /\ same_rows e (snd (m e)).

(** The events a run has added to the trace are [evs]. *)
Definition added (before after : Env) (evs : list event) : Prop :=
  trace after = trace before ++ evs.

(** The input a window's handler rejects for its shape: no forwarded chat
    at the forward step, no text elsewhere. *)
Definition wrong_shape (st : State) (message : Message) : Prop :=
  match st with
  | AddChannelState_get_channel_data => forward_from_chat message = None
  | _ => nonempty_text message = None
  end.

(** The state belongs to a window of a dialog that [dialog_register]
    includes. *)
Definition registered (st : State) : Prop :=
  exists d : Dialog, In d dialog_register /\ In st (windows d).

(** ** Sample inputs *)

Definition sample_channel (id : Z) (status : string) : ChannelRow :=
  {| channel_id := id; channel_name := "Chan"; channel_username := "chan";
     channel_status := status; channel_col4 := ""; channel_url := "https://t.me/chan" |}.

Definition sample_bot (handle status : string) : BotRow :=
  {| bot_name := "Helper"; bot_username := handle; bot_status := status;
     bot_url := "https://t.me/helper" |}.

(** The user is "member" of chat 1 and has left every other chat. *)
Definition sample_world (cs : list ChannelRow) (bs : list BotRow) : World :=
  {| channels := cs; bots := bs; new_status := "True"; new_col4 := "";
     faults := [];
     chat_member := fun chat _ => if chat =? 1 then Some "member" else Some "left" |}.

Definition gate_world : World :=
  sample_world [sample_channel 1 "True"; sample_channel 2 "False"; sample_channel 3 "True"] [].

Definition text_message (t : string) : Message :=
  {| text := Some t; forward_from_chat := None; from_user_id := 7 |}.

Definition forwarded_from (id : Z) : Message :=
  {| text := None;
     forward_from_chat := Some {| chat_id := id; full_name := Some "Chan"; username := Some "chan" |};
     from_user_id := 7 |}.

(** A message that is neither text nor forwarded (a photo, say). *)
Definition photo_message : Message :=
  {| text := None; forward_from_chat := None; from_user_id := 7 |}.

(** A store that knows channel 555, and a flow freshly opened at the
    forward step on top of the main menu. *)
Definition known_555 : World := sample_world [sample_channel 555 "True"] [].

Definition at_forward_step : Env :=
  mk_env [fresh_context AddChannelState_get_channel_data; fresh_context OPMenu_menu]
    known_555 [].

(** The URL step of a flow that stashed channel 555 while the store has
    come to know that channel. *)
Definition stashed_555 : channel_dict :=
  {| cd_channel_name := "Chan"; cd_channel_id := 555; cd_channel_username := "chan" |}.

Definition at_url_step : Env :=
  mk_env
    [ {| ctx_state := AddChannelState_get_channel_link; start_data := None;
         dialog_data := {[ "channel_data" := VDict stashed_555 ]} |};
      fresh_context OPMenu_menu ]
    known_555 [].

(** The name step of a bot flow that collected the handle "helper" while
    the store has come to know that bot. *)
Definition known_helper : World := sample_world [] [sample_bot "helper" "True"].

Definition at_name_step : Env :=
  mk_env
    [ {| ctx_state := AddBotState_get_bot_name; start_data := None;
         dialog_data := {[ "bot_username" := VStr "helper";
                           "bot_url" := VStr "https://t.me/helper" ]} |};
      fresh_context OPMenu_menu ]
    known_helper [].

(** The detail view of channel 555, respectively of the bot "helper",
    whose stored status is [status]. *)
Definition at_channel_menu (status : string) : Env :=
  mk_env
    [ {| ctx_state := ChannelMenu_menu;
         start_data := Some {[ "channel_id" := VInt 555 ]};
         dialog_data := {[ "channel_id" := VInt 555 ]} |};
      fresh_context OPMenu_menu ]
    (sample_world [sample_channel 555 status] []) [].

Definition at_bot_menu (status : string) : Env :=
  mk_env
    [ {| ctx_state := BotMenu_menu;
         start_data := Some {[ "bot_username" := VStr "helper" ]};
         dialog_data := {[ "bot_username" := VStr "helper" ]} |};
      fresh_context OPMenu_menu ]
    (sample_world [] [sample_bot "helper" status]) [].

(** A bot flow freshly opened at the username step; the store is empty. *)
Definition at_username_step : Env :=
  mk_env [fresh_context AddBotState_get_bot_username; fresh_context OPMenu_menu]
    (sample_world [] []) [].

(** The detail view being opened for channel [k], respectively for the bot
    [u], over a store that knows channel 555 and the bot "helper". *)
Definition known_both : World :=
  sample_world [sample_channel 555 "True"] [sample_bot "helper" "False"].

Definition opening_channel_view (k : Z) : Env :=
  mk_env
    [ {| ctx_state := ChannelMenu_menu;
         start_data := Some {[ "channel_id" := VInt k ]};
         dialog_data := ∅ |};
      fresh_context OPMenu_menu ]
    known_both [].

Definition opening_bot_view (u : string) : Env :=
  mk_env
    [ {| ctx_state := BotMenu_menu;
         start_data := Some {[ "bot_username" := VStr u ]};
         dialog_data := ∅ |};
      fresh_context OPMenu_menu ]
    known_both [].

(** Three active channels; the endpoint answers "left" for chat 1, raises
    for chat 2 and would answer for chat 3. *)
Definition flaky_world : World :=
  {| channels := [sample_channel 1 "True"; sample_channel 2 "True"; sample_channel 3 "True"];
     bots := []; new_status := "True"; new_col4 := ""; faults := [];
     chat_member := fun chat _ => if chat =? 2 then None else Some "left" |}.

(** The main menu alone on the stack, over a store that knows channel 555
    and the bot "helper"; a parser that reads the item id "555". *)
Definition at_op_menu : Env := mk_env [fresh_context OPMenu_menu] known_both [].

Definition parse_555 (item_id : string) : option Z :=
  if String.eqb item_id "555" then Some 555 else None.

(** An environment whose storage is scheduled to fail as [fs] tells. *)
Definition storage_failing (fs : list bool) (e : Env) : Env :=
  mk_env (stack e) (with_faults fs (world e)) (trace e).

(** The name step of a bot flow in which no URL was collected. *)
Definition at_name_step_without_url : Env :=
  mk_env
    [ {| ctx_state := AddBotState_get_bot_name; start_data := None;
         dialog_data := {[ "bot_username" := VStr "helper" ]} |};
      fresh_context OPMenu_menu ]
    (sample_world [] []) [].

(** ** Generic facts *)

Ltac unfold_manager :=
  unfold channel_data_items, set_msg_type, set_dialog_data, get_dialog_data, get_start_data,
    current_context, switch_to, done, start, emit, put_stack, get_stack,
    raise, try_except, finally, mbind, mret, M_bind, M_ret in *.

(** A database call when no storage fault is scheduled. *)
Lemma db_no_fault {A} (c : db_call) (act : World -> outcome A * World)
    (s : list Context) (w : World) (t : list event) :
  faults w = [] ->
  db c act (mk_env s w t) =
    (fst (act w), mk_env s (snd (act w)) (t ++ [EvDb c])).
Proof.
  intros Hf. unfold db, mk_env. simpl. rewrite Hf.
  destruct (act w); reflexivity.
Qed.

(** ** C1: the membership gate *)

Lemma gate_loop_spec (user : Z) (chans : list ChannelRow) :
  forall (acc : list ChannelRow) (s : list Context) (w : World) (t : list event),
    endpoint_answers w user chans ->
    gate_loop user chans acc (mk_env s w t) =
      (Ret (acc ++ List.filter (unsatisfied w user) chans),
       mk_env s w (t ++ map (query_of user) (List.filter active chans))).
Proof.
  induction chans as [|c chans IH]; intros acc s w t Hans.
  - simpl. rewrite !app_nil_r. reflexivity.
  - assert (Hrest : endpoint_answers w user chans).
    { intros c' Hin. apply Hans. right. exact Hin. }
    simpl. unfold unsatisfied at 1. fold (active c).
    destruct (active c) eqn:Hact; simpl.
    + destruct (Hans c (or_introl eq_refl) Hact) as [role Hrole].
      unfold mbind, M_bind, get_chat_member. simpl. rewrite Hrole.
      fold (mk_env s w (t ++ [EvGetChatMember (channel_id c) user])).
      destruct (is_subscribed role); simpl; rewrite IH by exact Hrest;
        unfold query_of at 2; rewrite <- !app_assoc; reflexivity.
    + apply IH. exact Hrest.
Qed.

(** Whatever the endpoint does, only active channels are queried. *)
Lemma gate_loop_queries_active (user : Z) (chans : list ChannelRow) :
  forall (acc : list ChannelRow) (e : Env),
    exists qs,
      trace (snd (gate_loop user chans acc e)) = trace e ++ qs /\
      Forall (fun ev => exists c, In c chans /\ active c = true /\ ev = query_of user c) qs.
Proof.
  induction chans as [|c chans IH]; intros acc e.
  - exists []. simpl. rewrite app_nil_r. split; [reflexivity | constructor].
  - simpl. fold (active c). destruct (active c) eqn:Hact.
    + unfold mbind, M_bind, get_chat_member.
      destruct (chat_member (world e) (channel_id c) user) as [role|].
      * set (e1 := {| stack := stack e; world := world e;
                      trace := trace e ++ [EvGetChatMember (channel_id c) user] |}).
        destruct (negb (is_subscribed role));
          [destruct (IH (acc ++ [c]) e1) as [qs [Ht Hq]]
          |destruct (IH acc e1) as [qs [Ht Hq]]];
          exists (query_of user c :: qs); rewrite Ht; simpl;
          (split; [rewrite <- app_assoc; reflexivity|]);
          (constructor; [exists c; simpl; auto |
            eapply Forall_impl; [exact Hq|]; intros ev [c' [? [? ?]]]; exists c'; simpl; auto]).
      * exists [query_of user c]. simpl. split; [reflexivity|].
        constructor; [exists c; simpl; auto | constructor].
    + destruct (IH acc e) as [qs [Ht Hq]]. exists qs. split; [exact Ht|].
      eapply Forall_impl; [exact Hq|]. intros ev [c' [? [? ?]]]. exists c'; simpl; auto.
Qed.

Lemma is_subscribed_false (role : string) :
  is_subscribed role = false <->
  role <> "member" /\ role <> "administrator" /\ role <> "creator".
Proof.
  unfold is_subscribed. simpl. rewrite !orb_false_iff, !String.eqb_neq. tauto.
Qed.

Lemma unsatisfied_iff (w : World) (user : Z) (c : ChannelRow) :
  unsatisfied w user c = true <->
  active c = true /\
  exists role, chat_member w (channel_id c) user = Some role /\
    role <> "member" /\ role <> "administrator" /\ role <> "creator".
Proof.
  unfold unsatisfied. rewrite andb_true_iff.
  destruct (chat_member w (channel_id c) user) as [role|].
  - rewrite negb_true_iff, is_subscribed_false. split.
    + intros [Ha Hr]. split; [exact Ha|]. exists role. split; [reflexivity | exact Hr].
    + intros [Ha [r [[= <-] Hr]]]. split; assumption.
  - split.
    + intros [_ H]. discriminate.
    + intros [_ [r [H _]]]. discriminate.
Qed.

(** C1. Membership gate, message and callback variants. When the storage
    answers and the endpoint returns a role for every active channel, the
    gate asks the endpoint exactly for the channels whose status is the
    literal "True", in the order of the channel list, and answers with the
    channels, in that same order, whose returned role is none of member,
    administrator, creator. *)
Theorem gate_queries_active_and_collects_unsubscribed :
  forall (e : Env) (message : Message),
    faults (world e) = [] ->
    endpoint_answers (world e) (from_user_id message) (channels (world e)) ->
    let user := from_user_id message in
    let w := world e in
    let not_sub := List.filter (unsatisfied w user) (channels w) in
    let final :=
      mk_env (stack e) w
        (trace e ++ [EvDb GetAllChannels; EvDb GetAllBots] ++
         map (query_of user) (List.filter active (channels w)) ++
         [EvAnswer not_sub (bots w)]) in
    check_channel_sub_message message e = (Ret tt, final) /\
    check_channel_sub_call user e = (Ret tt, final) /\
    (forall c, In c not_sub <->
       In c (channels w) /\ active c = true /\
       exists role, chat_member w (channel_id c) user = Some role /\
         role <> "member" /\ role <> "administrator" /\ role <> "creator").
Proof.
  intros [s w t] message Hf Hans user w0 not_sub final. simpl in *.
  subst w0.
  assert (Hrun : forall u, endpoint_answers w u (channels w) ->
    (channel_data ← ChannelActions.get_all_channels;
     bot_actions ← BotActions.get_all_bots;
     not_sub_channels ← gate_loop u channel_data [];
     emit (EvAnswer not_sub_channels bot_actions)) (mk_env s w t) =
    (Ret tt, mk_env s w
       (t ++ [EvDb GetAllChannels; EvDb GetAllBots] ++
        map (query_of u) (List.filter active (channels w)) ++
        [EvAnswer (List.filter (unsatisfied w u) (channels w)) (bots w)]))).
  { intros u Hu.
    unfold ChannelActions.get_all_channels, BotActions.get_all_bots.
    unfold mbind at 1. unfold M_bind at 1.
    rewrite db_no_fault by exact Hf. simpl.
    unfold mbind at 1. unfold M_bind at 1.
    rewrite db_no_fault by exact Hf. simpl.
    unfold mbind at 1. unfold M_bind at 1.
    rewrite gate_loop_spec by exact Hu. simpl.
    unfold emit, mk_env. simpl. rewrite <- !app_assoc. reflexivity. }
  split; [|split].
  - apply (Hrun (from_user_id message) Hans).
  - apply (Hrun user Hans).
  - intros c. unfold not_sub. rewrite filter_In, unsatisfied_iff. tauto.
Qed.

Lemma gate_sample_witness :
  check_channel_sub_message (text_message "hi") (mk_env [] gate_world []) =
    (Ret tt,
     mk_env [] gate_world
       [EvDb GetAllChannels; EvDb GetAllBots;
        EvGetChatMember 1 7; EvGetChatMember 3 7;
        EvAnswer [sample_channel 3 "True"] []]).
Proof.
  refine (proj1 (gate_queries_active_and_collects_unsubscribed
                   (mk_env [] gate_world []) (text_message "hi") eq_refl _)).
  intros c _ _. simpl. destruct (channel_id c =? 1); eauto.
Defined.

(** ** C2 and C10: the channel URL step without stashed data *)

Lemma url_input_no_channel_data
    (e : Env) (c : Context) (rest : list Context) (message : Message) (t : string) :
  stack e = c :: rest ->
  nonempty_text message = Some t ->
  truthy (dict_get (dialog_data c) "channel_data") = false ->
  handle_channel_url_input message e =
    (Ret tt,
     mk_env (fresh_context OPMenu_menu :: rest) (world e)
       (trace e ++ [EvSetData "msg_type" (VStr "error"); EvDone; EvStart OPMenu_menu])).
Proof.
  destruct e as [s w tr]. simpl. intros -> Ht Hcd.
  unfold handle_channel_url_input. rewrite Ht.
  unfold_manager. simpl. rewrite Hcd. simpl.
  unfold mk_env, fresh_context. rewrite <- !app_assoc. reflexivity.
Qed.

Lemma forward_known_channel
    (e : Env) (c : Context) (rest : list Context) (message : Message)
    (chat : Chat) (row : ChannelRow) :
  stack e = c :: rest ->
  ctx_state c = AddChannelState_get_channel_data ->
  faults (world e) = [] ->
  forward_from_chat message = Some chat ->
  List.find (channel_has (chat_id chat)) (channels (world e)) = Some row ->
  handle_channel_forward message e =
    (Ret tt,
     mk_env
       ({| ctx_state := AddChannelState_get_channel_link;
           start_data := start_data c;
           dialog_data := <["msg_type" := VStr "already_exists"]> (dialog_data c) |} :: rest)
       (world e)
       (trace e ++ [EvDb (GetChannel (VInt (chat_id chat)));
                    EvSetData "msg_type" (VStr "already_exists");
                    EvSwitchTo AddChannelState_get_channel_link])).
Proof.
  destruct e as [s w tr]. simpl. intros -> Hst Hf Hfw Hrow.
  unfold handle_channel_forward. rewrite Hfw.
  unfold ChannelActions.get_channel, db. unfold_manager.
  simpl. rewrite Hf. simpl. rewrite Hrow. simpl. rewrite Hst. simpl.
  unfold mk_env. rewrite <- !app_assoc. reflexivity.
Qed.

(** C2 (amended). A forward of a channel that is already stored sets the
    discriminator to "already_exists" and moves to the URL state without
    stashing channel data; since nothing was stashed, a text sent next makes
    no [add] call at all: the discriminator becomes "error", the flow ends
    to the main OP menu, and the stored rows are untouched. *)
Theorem forward_duplicate_then_url_makes_no_add :
  forall (e : Env) (c : Context) (rest : list Context) (message url : Message)
         (chat : Chat) (row : ChannelRow) (t : string),
    stack e = c :: rest ->
    ctx_state c = AddChannelState_get_channel_data ->
    dialog_data c !! "channel_data" = None ->
    faults (world e) = [] ->
    forward_from_chat message = Some chat ->
    List.find (channel_has (chat_id chat)) (channels (world e)) = Some row ->
    nonempty_text url = Some t ->
    let e1 :=
      mk_env
        ({| ctx_state := AddChannelState_get_channel_link;
            start_data := start_data c;
            dialog_data := <["msg_type" := VStr "already_exists"]> (dialog_data c) |} :: rest)
        (world e)
        (trace e ++ [EvDb (GetChannel (VInt (chat_id chat)));
                     EvSetData "msg_type" (VStr "already_exists");
                     EvSwitchTo AddChannelState_get_channel_link]) in
    handle_channel_forward message e = (Ret tt, e1) /\
    scratch e1 "channel_data" = None /\
    handle_channel_url_input url e1 =
      (Ret tt,
       mk_env (fresh_context OPMenu_menu :: rest) (world e)
         (trace e1 ++ [EvSetData "msg_type" (VStr "error"); EvDone; EvStart OPMenu_menu])).
Proof.
  intros e c rest message url chat row t Hs Hst Hcd Hf Hfw Hrow Ht e1.
  assert (Hcd1 : scratch e1 "channel_data" = None).
  { unfold scratch, e1. simpl. rewrite lookup_insert_ne by discriminate. exact Hcd. }
  split; [|split].
  - apply (forward_known_channel e c rest message chat row); assumption.
  - exact Hcd1.
  - eapply (url_input_no_channel_data e1); [reflexivity | exact Ht |].
    unfold scratch, e1 in Hcd1. simpl in Hcd1.
    unfold dict_get. simpl. rewrite Hcd1. reflexivity.
Qed.

Lemma forward_duplicate_witness :
  handle_channel_url_input (text_message "https://t.me/chan")
    (snd (handle_channel_forward (forwarded_from 555) at_forward_step)) =
  (Ret tt,
   mk_env [fresh_context OPMenu_menu; fresh_context OPMenu_menu] known_555
     [EvDb (GetChannel (VInt 555)); EvSetData "msg_type" (VStr "already_exists");
      EvSwitchTo AddChannelState_get_channel_link;
      EvSetData "msg_type" (VStr "error"); EvDone; EvStart OPMenu_menu]).
Proof.
  destruct (forward_duplicate_then_url_makes_no_add
              at_forward_step (fresh_context AddChannelState_get_channel_data)
              [fresh_context OPMenu_menu]
              (forwarded_from 555) (text_message "https://t.me/chan")
              {| chat_id := 555; full_name := Some "Chan"; username := Some "chan" |}
              (sample_channel 555 "True") "https://t.me/chan"
              eq_refl eq_refl eq_refl eq_refl eq_refl eq_refl eq_refl)
    as [H1 [_ H3]].
  rewrite H1. exact H3.
Defined.

(** The statement as the specification words it fails on the sample flow: no [add] is attempted
    after the duplicate forward. *)
Lemma forward_duplicate_then_add_fails :
  ~ forward_duplicate_then_add at_forward_step (forwarded_from 555)
      (text_message "https://t.me/chan") 555.
Proof.
  intros (_ & _ & _ & (name & uname & link & Hin) & _).
  vm_compute in Hin.
  destruct Hin as [H|H]; [discriminate H | exact H].
Qed.

(** C10. Channel URL step with no stashed channel data: the discriminator is
    set to "error", the flow ends to the main OP menu, no database call is
    made and the world is left as it was. *)
Theorem url_step_without_channel_data :
  forall (e : Env) (c : Context) (rest : list Context) (message : Message) (t : string),
    stack e = c :: rest ->
    nonempty_text message = Some t ->
    truthy (dict_get (dialog_data c) "channel_data") = false ->
    let r := handle_channel_url_input message e in
    r = (Ret tt,
         mk_env (fresh_context OPMenu_menu :: rest) (world e)
           (trace e ++ [EvSetData "msg_type" (VStr "error"); EvDone; EvStart OPMenu_menu])) /\
    db_calls (trace (snd r)) = db_calls (trace e) /\
    world (snd r) = world e.
Proof.
  intros e c rest message t Hs Ht Hcd r. subst r.
  rewrite (url_input_no_channel_data e c rest message t Hs Ht Hcd). simpl.
  split; [reflexivity|]. split; [|reflexivity].
  unfold db_calls. rewrite omap_app. simpl. apply app_nil_r.
Qed.

Lemma url_step_without_channel_data_witness :
  handle_channel_url_input (text_message "https://t.me/chan")
    (mk_env [fresh_context AddChannelState_get_channel_link] known_555 []) =
  (Ret tt,
   mk_env [fresh_context OPMenu_menu] known_555
     [EvSetData "msg_type" (VStr "error"); EvDone; EvStart OPMenu_menu]).
Proof.
  exact (proj1 (url_step_without_channel_data
                  (mk_env [fresh_context AddChannelState_get_channel_link] known_555 [])
                  (fresh_context AddChannelState_get_channel_link) []
                  (text_message "https://t.me/chan") "https://t.me/chan"
                  eq_refl eq_refl eq_refl)).
Defined.

(** ** C3 and C4: the final add step *)

Ltac case_faults w :=
  let Hf := fresh "Hf" in
  destruct (faults w) as [|[|] ?] eqn:Hf.

Lemma channel_add_step
    (e : Env) (c : Context) (rest : list Context) (message : Message)
    (t : string) (d : channel_dict) :
  stack e = c :: rest ->
  nonempty_text message = Some t ->
  dict_get (dialog_data c) "channel_data" = VDict d ->
  exists w' evs,
    handle_channel_url_input message e =
      (Ret tt,
       mk_env (fresh_context OPMenu_menu :: rest) w'
         (trace e ++
          [EvDb (AddChannel (cd_channel_id d) (cd_channel_name d)
                   (cd_channel_username d) (PyStr.strip t))] ++
          evs ++ [EvDone; EvStart OPMenu_menu])) /\
    after_add evs.
Proof.
  destruct e as [s w tr]. simpl. intros -> Ht Hcd.
  unfold handle_channel_url_input. rewrite Ht.
  unfold ChannelActions.add_channel, db. unfold_manager.
  simpl. rewrite Hcd. simpl.
  unfold after_add, mk_env, fresh_context.
  case_faults w; simpl.
  - destruct (List.find (channel_has (cd_channel_id d)) (channels w)); simpl.
    + eexists. exists [EvSetData "msg_type" (VStr "already_exists")].
      split; [rewrite <- !app_assoc; reflexivity | auto].
    + eexists. exists [].
      split; [rewrite <- !app_assoc; reflexivity | auto].
  - eexists. exists [EvSetData "msg_type" (VStr "error")].
    split; [rewrite <- !app_assoc; reflexivity | auto].
  - destruct (List.find (channel_has (cd_channel_id d)) (channels w)); simpl.
    + eexists. exists [EvSetData "msg_type" (VStr "already_exists")].
      split; [rewrite <- !app_assoc; reflexivity | auto].
    + eexists. exists [].
      split; [rewrite <- !app_assoc; reflexivity | auto].
Qed.

Ltac close_add_case evs :=
  eexists; exists evs;
  split; [rewrite <- !app_assoc; reflexivity | unfold after_add; auto].

Ltac close_add :=
  first [ close_add_case (@nil event)
        | close_add_case [EvSetData "msg_type" (VStr "already_exists")]
        | close_add_case [EvSetData "msg_type" (VStr "error")] ].

Lemma bot_add_step
    (e : Env) (c : Context) (rest : list Context) (message : Message) (t : string) :
  stack e = c :: rest ->
  nonempty_text message = Some t ->
  truthy (dict_get (dialog_data c) "bot_username") = true ->
  truthy (dict_get (dialog_data c) "bot_url") = true ->
  exists w' evs,
    handle_bot_name_input message e =
      (Ret tt,
       mk_env (fresh_context OPMenu_menu :: rest) w'
         (trace e ++
          [EvDb (AddBot (PyStr.strip t) (dict_get (dialog_data c) "bot_username")
                   (dict_get (dialog_data c) "bot_url"))] ++
          evs ++ [EvDone; EvStart OPMenu_menu])) /\
    after_add evs.
Proof.
  destruct e as [s w tr]. simpl. intros -> Ht Hu Hl.
  unfold handle_bot_name_input. rewrite Ht.
  unfold BotActions.add_bot, db. unfold_manager. simpl.
  rewrite Hu, Hl. simpl.
  unfold mk_env, fresh_context.
  destruct (dict_get (dialog_data c) "bot_username") as [|zu|su|du];
    destruct (dict_get (dialog_data c) "bot_url") as [|zl|sl|dl];
    try discriminate Hu; try discriminate Hl;
    case_faults w; simpl;
    try destruct (List.find (bot_has su) (bots w)); simpl;
    close_add.
Qed.

(** C3. Final add step of both registration flows: once the handler gets
    to call [add] (text present, collected data present), it always returns
    normally with the flow ended and the main OP menu opened on top of what
    was below the flow, whatever the store and the storage faults make of
    the call: success, duplicate key, or any other error. *)
Theorem final_add_step_ends_in_menu :
  forall (e : Env) (c : Context) (rest : list Context) (message : Message) (t : string),
    stack e = c :: rest ->
    nonempty_text message = Some t ->
    (forall d : channel_dict,
        dict_get (dialog_data c) "channel_data" = VDict d ->
        let r := handle_channel_url_input message e in
        fst r = Ret tt /\
        back_in_menu rest (snd r) /\
        exists evs,
          trace (snd r) =
            trace e ++
            [EvDb (AddChannel (cd_channel_id d) (cd_channel_name d)
                     (cd_channel_username d) (PyStr.strip t))] ++
            evs ++ [EvDone; EvStart OPMenu_menu] /\
          after_add evs) /\
    (truthy (dict_get (dialog_data c) "bot_username") = true ->
     truthy (dict_get (dialog_data c) "bot_url") = true ->
     let r := handle_bot_name_input message e in
     fst r = Ret tt /\
     back_in_menu rest (snd r) /\
     exists evs,
       trace (snd r) =
         trace e ++
         [EvDb (AddBot (PyStr.strip t) (dict_get (dialog_data c) "bot_username")
                  (dict_get (dialog_data c) "bot_url"))] ++
         evs ++ [EvDone; EvStart OPMenu_menu] /\
       after_add evs).
Proof.
  intros e c rest message t Hs Ht. split.
  - intros d Hcd r.
    destruct (channel_add_step e c rest message t d Hs Ht Hcd) as (w' & evs & Hrun & Hevs).
    subst r. rewrite Hrun. simpl. unfold back_in_menu. simpl.
    split; [reflexivity|]. split; [reflexivity|]. exists evs. auto.
  - intros Hu Hl r.
    destruct (bot_add_step e c rest message t Hs Ht Hu Hl) as (w' & evs & Hrun & Hevs).
    subst r. rewrite Hrun. simpl. unfold back_in_menu. simpl.
    split; [reflexivity|]. split; [reflexivity|]. exists evs. auto.
Qed.

Lemma final_add_step_witness :
  back_in_menu [fresh_context OPMenu_menu]
    (snd (handle_channel_url_input (text_message "https://t.me/chan") at_url_step)) /\
  back_in_menu [fresh_context OPMenu_menu]
    (snd (handle_bot_name_input (text_message "Helper") at_name_step)).
Proof.
  split.
  - exact (proj1 (proj2 (proj1 (final_add_step_ends_in_menu at_url_step _ _
                    (text_message "https://t.me/chan") "https://t.me/chan"
                    eq_refl eq_refl) stashed_555 eq_refl))).
  - exact (proj1 (proj2 (proj2 (final_add_step_ends_in_menu at_name_step _ _
                    (text_message "Helper") "Helper"
                    eq_refl eq_refl) eq_refl eq_refl))).
Defined.

Lemma channel_add_duplicate
    (e : Env) (c : Context) (rest : list Context) (message : Message)
    (t : string) (d : channel_dict) (row : ChannelRow) :
  stack e = c :: rest ->
  nonempty_text message = Some t ->
  faults (world e) = [] ->
  dict_get (dialog_data c) "channel_data" = VDict d ->
  List.find (channel_has (cd_channel_id d)) (channels (world e)) = Some row ->
  handle_channel_url_input message e =
    (Ret tt,
     mk_env (fresh_context OPMenu_menu :: rest) (world e)
       (trace e ++
        [EvDb (AddChannel (cd_channel_id d) (cd_channel_name d)
                 (cd_channel_username d) (PyStr.strip t));
         EvSetData "msg_type" (VStr "already_exists");
         EvDone; EvStart OPMenu_menu])).
Proof.
  destruct e as [s w tr]. simpl. intros -> Ht Hf Hcd Hrow.
  unfold handle_channel_url_input. rewrite Ht.
  unfold ChannelActions.add_channel, db. unfold_manager.
  simpl. rewrite Hcd. simpl. rewrite Hf, Hrow. simpl.
  unfold mk_env, fresh_context. rewrite <- !app_assoc. reflexivity.
Qed.

Lemma bot_add_duplicate
    (e : Env) (c : Context) (rest : list Context) (message : Message)
    (t u l : string) (row : BotRow) :
  stack e = c :: rest ->
  nonempty_text message = Some t ->
  faults (world e) = [] ->
  dict_get (dialog_data c) "bot_username" = VStr u -> u <> "" ->
  dict_get (dialog_data c) "bot_url" = VStr l -> l <> "" ->
  List.find (bot_has u) (bots (world e)) = Some row ->
  handle_bot_name_input message e =
    (Ret tt,
     mk_env (fresh_context OPMenu_menu :: rest) (world e)
       (trace e ++
        [EvDb (AddBot (PyStr.strip t) (VStr u) (VStr l));
         EvSetData "msg_type" (VStr "already_exists");
         EvDone; EvStart OPMenu_menu])).
Proof.
  destruct e as [s w tr]. simpl. intros -> Ht Hf Hu Hune Hl Hlne Hrow.
  apply String.eqb_neq in Hune, Hlne.
  unfold handle_bot_name_input. rewrite Ht.
  unfold BotActions.add_bot, db. unfold_manager.
  simpl. rewrite Hu, Hl. simpl. rewrite Hune, Hlne. simpl.
  rewrite Hf, Hrow. simpl.
  unfold mk_env, fresh_context. rewrite <- !app_assoc. reflexivity.
Qed.

(** C4 (amended). When the [add] of the final step raises the duplicate-key
    error, the handler writes the discriminator "already_exists" into the
    scratch of the running flow and then ends that flow: control is back in
    the main OP menu, not in the input state, and the world, stored rows
    included, is what it was. *)
Theorem duplicate_on_add_ends_the_flow :
  forall (e : Env) (c : Context) (rest : list Context) (message : Message) (t : string),
    stack e = c :: rest ->
    nonempty_text message = Some t ->
    faults (world e) = [] ->
    (forall (d : channel_dict) (row : ChannelRow),
        dict_get (dialog_data c) "channel_data" = VDict d ->
        List.find (channel_has (cd_channel_id d)) (channels (world e)) = Some row ->
        handle_channel_url_input message e =
          (Ret tt,
           mk_env (fresh_context OPMenu_menu :: rest) (world e)
             (trace e ++
              [EvDb (AddChannel (cd_channel_id d) (cd_channel_name d)
                       (cd_channel_username d) (PyStr.strip t));
               EvSetData "msg_type" (VStr "already_exists");
               EvDone; EvStart OPMenu_menu]))) /\
    (forall (u l : string) (row : BotRow),
        dict_get (dialog_data c) "bot_username" = VStr u -> u <> "" ->
        dict_get (dialog_data c) "bot_url" = VStr l -> l <> "" ->
        List.find (bot_has u) (bots (world e)) = Some row ->
        handle_bot_name_input message e =
          (Ret tt,
           mk_env (fresh_context OPMenu_menu :: rest) (world e)
             (trace e ++
              [EvDb (AddBot (PyStr.strip t) (VStr u) (VStr l));
               EvSetData "msg_type" (VStr "already_exists");
               EvDone; EvStart OPMenu_menu]))).
Proof.
  intros e c rest message t Hs Ht Hf. split.
  - intros d row Hcd Hrow.
    apply (channel_add_duplicate e c rest message t d row); assumption.
  - intros u l row Hu Hune Hl Hlne Hrow.
    apply (bot_add_duplicate e c rest message t u l row); assumption.
Qed.

Lemma duplicate_on_add_witness :
  current_state
    (snd (handle_channel_url_input (text_message "https://t.me/chan") at_url_step))
    = Some OPMenu_menu /\
  current_state
    (snd (handle_bot_name_input (text_message "Helper") at_name_step))
    = Some OPMenu_menu.
Proof.
  split.
  - rewrite (proj1 (duplicate_on_add_ends_the_flow at_url_step _ _
               (text_message "https://t.me/chan") "https://t.me/chan"
               eq_refl eq_refl eq_refl)
             stashed_555 (sample_channel 555 "True") eq_refl eq_refl).
    reflexivity.
  - rewrite (proj2 (duplicate_on_add_ends_the_flow at_name_step _ _
               (text_message "Helper") "Helper" eq_refl eq_refl eq_refl)
             "helper" "https://t.me/helper" (sample_bot "helper" "True")
             eq_refl ltac:(discriminate) eq_refl ltac:(discriminate) eq_refl).
    reflexivity.
Defined.

(** The statement as the specification words it fails on the sample flows: after the duplicate-key
    error the conversation is in the main OP menu, not in the input state. *)
Lemma duplicate_on_add_does_not_stay :
  ~ stays_with_already_exists at_url_step
      (snd (handle_channel_url_input (text_message "https://t.me/chan") at_url_step)) /\
  ~ stays_with_already_exists at_name_step
      (snd (handle_bot_name_input (text_message "Helper") at_name_step)).
Proof.
  split; intros [H _]; vm_compute in H; discriminate H.
Qed.

(** ** C5 and C9: the status toggle *)

Lemma find_update_channel_rows (s : string) (k : Z) (rows : list ChannelRow) :
  List.find (channel_has k) (ChannelActions.update_rows s k rows) =
  set_channel_status s <$> List.find (channel_has k) rows.
Proof.
  induction rows as [|r rows IH]; [reflexivity|].
  simpl. destruct (channel_has k r) eqn:Hk.
  - unfold channel_has in *. simpl. rewrite Hk. reflexivity.
  - rewrite Hk. exact IH.
Qed.

Lemma find_update_bot_rows (s u : string) (rows : list BotRow) :
  List.find (bot_has u) (BotActions.update_rows s u rows) =
  set_bot_status s <$> List.find (bot_has u) rows.
Proof.
  induction rows as [|r rows IH]; [reflexivity|].
  simpl. destruct (bot_has u r) eqn:Hk.
  - unfold bot_has in *. simpl. rewrite Hk. reflexivity.
  - rewrite Hk. exact IH.
Qed.

Lemma toggled_literal (s : string) : toggled s = "True" \/ toggled s = "False".
Proof. unfold toggled. destruct (String.eqb s "True"); auto. Qed.

Lemma toggled_twice (s : string) :
  s = "True" \/ s = "False" -> toggled (toggled s) = s.
Proof. intros [-> | ->]; reflexivity. Qed.

Lemma toggle_channel_run
    (e : Env) (c : Context) (rest : list Context) (k : Z) (row : ChannelRow) :
  stack e = c :: rest ->
  group (ctx_state c) = ChannelMenu ->
  faults (world e) = [] ->
  dict_get (dialog_data c) "channel_id" = VInt k -> k <> 0 ->
  List.find (channel_has k) (channels (world e)) = Some row ->
  handle_toggle_channel_op_status e =
    (Ret tt,
     mk_env (with_state ChannelMenu_menu c :: rest)
       (with_channels
          (ChannelActions.update_rows (toggled (channel_status row)) k (channels (world e)))
          (world e))
       (trace e ++
        [EvDb (GetChannel (VInt k));
         EvDb (UpdateChannelStatus (toggled (channel_status row)) (VInt k));
         EvSwitchTo ChannelMenu_menu])).
Proof.
  destruct e as [s w tr]. simpl. intros -> Hg Hf Hk Hk0 Hrow.
  apply Z.eqb_neq in Hk0.
  unfold handle_toggle_channel_op_status.
  unfold ChannelActions.get_channel, ChannelActions.update_channel_status, db.
  unfold_manager. simpl. rewrite Hk. simpl. rewrite Hk0. simpl.
  rewrite Hf. simpl. rewrite Hrow. simpl. rewrite Hf. simpl. rewrite Hg. simpl.
  unfold mk_env, with_state. rewrite <- !app_assoc. reflexivity.
Qed.

Lemma toggle_bot_run
    (e : Env) (c : Context) (rest : list Context) (u : string) (row : BotRow) :
  stack e = c :: rest ->
  group (ctx_state c) = BotMenu ->
  faults (world e) = [] ->
  dict_get (dialog_data c) "bot_username" = VStr u -> u <> "" ->
  List.find (bot_has u) (bots (world e)) = Some row ->
  handle_toggle_bot_op_status e =
    (Ret tt,
     mk_env (with_state BotMenu_menu c :: rest)
       (with_bots
          (BotActions.update_rows (toggled (bot_status row)) u (bots (world e)))
          (world e))
       (trace e ++
        [EvDb (GetBot (VStr u));
         EvDb (UpdateBotStatus (toggled (bot_status row)) (VStr u));
         EvSwitchTo BotMenu_menu])).
Proof.
  destruct e as [s w tr]. simpl. intros -> Hg Hf Hk Hk0 Hrow.
  apply String.eqb_neq in Hk0.
  unfold handle_toggle_bot_op_status.
  unfold BotActions.get_bot, BotActions.update_bot_status, db.
  unfold_manager. simpl. rewrite Hk. simpl. rewrite Hk0. simpl.
  rewrite Hf. simpl. rewrite Hrow. simpl. rewrite Hf. simpl. rewrite Hg. simpl.
  unfold mk_env, with_state. rewrite <- !app_assoc. reflexivity.
Qed.

(** C9. Toggle totality: whatever the stored status was, literal or not,
    one toggle persists "False" when it was "True" and "True" otherwise, so
    the status read back afterwards is one of the two literals. *)
Theorem toggle_persists_a_literal :
  forall (e : Env) (c : Context) (rest : list Context),
    stack e = c :: rest ->
    faults (world e) = [] ->
    (forall (k : Z) (row : ChannelRow),
        group (ctx_state c) = ChannelMenu ->
        dict_get (dialog_data c) "channel_id" = VInt k -> k <> 0 ->
        List.find (channel_has k) (channels (world e)) = Some row ->
        let e' := snd (handle_toggle_channel_op_status e) in
        exists row',
          List.find (channel_has k) (channels (world e')) = Some row' /\
          channel_status row' =
            (if String.eqb (channel_status row) "True" then "False" else "True") /\
          (channel_status row' = "True" \/ channel_status row' = "False") /\
          In (UpdateChannelStatus (channel_status row') (VInt k)) (db_calls (trace e'))) /\
    (forall (u : string) (row : BotRow),
        group (ctx_state c) = BotMenu ->
        dict_get (dialog_data c) "bot_username" = VStr u -> u <> "" ->
        List.find (bot_has u) (bots (world e)) = Some row ->
        let e' := snd (handle_toggle_bot_op_status e) in
        exists row',
          List.find (bot_has u) (bots (world e')) = Some row' /\
          bot_status row' =
            (if String.eqb (bot_status row) "True" then "False" else "True") /\
          (bot_status row' = "True" \/ bot_status row' = "False") /\
          In (UpdateBotStatus (bot_status row') (VStr u)) (db_calls (trace e'))).
Proof.
  intros e c rest Hs Hf. split.
  - intros k row Hg Hk Hk0 Hrow e'. subst e'.
    rewrite (toggle_channel_run e c rest k row Hs Hg Hf Hk Hk0 Hrow). simpl.
    exists (set_channel_status (toggled (channel_status row)) row).
    rewrite find_update_channel_rows, Hrow. simpl.
    split; [reflexivity|]. split; [reflexivity|].
    split; [apply toggled_literal|].
    unfold db_calls. rewrite omap_app. apply in_or_app. right. simpl. auto.
  - intros u row Hg Hk Hk0 Hrow e'. subst e'.
    rewrite (toggle_bot_run e c rest u row Hs Hg Hf Hk Hk0 Hrow). simpl.
    exists (set_bot_status (toggled (bot_status row)) row).
    rewrite find_update_bot_rows, Hrow. simpl.
    split; [reflexivity|]. split; [reflexivity|].
    split; [apply toggled_literal|].
    unfold db_calls. rewrite omap_app. apply in_or_app. right. simpl. auto.
Qed.

Lemma toggle_persists_a_literal_witness :
  (exists row',
      List.find (channel_has 555)
        (channels (world (snd (handle_toggle_channel_op_status (at_channel_menu "maybe")))))
        = Some row' /\ channel_status row' = "True") /\
  (exists row',
      List.find (bot_has "helper")
        (bots (world (snd (handle_toggle_bot_op_status (at_bot_menu "True")))))
        = Some row' /\ bot_status row' = "False").
Proof.
  split.
  - destruct (proj1 (toggle_persists_a_literal (at_channel_menu "maybe") _ _ eq_refl eq_refl)
                555 (sample_channel 555 "maybe") eq_refl eq_refl ltac:(discriminate) eq_refl)
      as (row' & Hfind & Hst & _).
    exists row'. split; [exact Hfind | exact Hst].
  - destruct (proj2 (toggle_persists_a_literal (at_bot_menu "True") _ _ eq_refl eq_refl)
                "helper" (sample_bot "helper" "True") eq_refl eq_refl ltac:(discriminate) eq_refl)
      as (row' & Hfind & Hst & _).
    exists row'. split; [exact Hfind | exact Hst].
Defined.

Lemma set_channel_status_back (s : string) (row : ChannelRow) :
  set_channel_status (channel_status row) (set_channel_status s row) = row.
Proof. destruct row; reflexivity. Qed.

Lemma set_bot_status_back (s : string) (row : BotRow) :
  set_bot_status (bot_status row) (set_bot_status s row) = row.
Proof. destruct row; reflexivity. Qed.

(** C5. Status toggle, channel and bot. For a stored entity whose status
    is one of the two literals, one toggle reads the entity, persists the
    other literal and shows the detail view: the entity read back afterwards
    carries the other literal ("True" has become "False", "False" has become
    "True") and is otherwise the same; a second toggle brings the stored
    entity back to what it was. (The key kept by the detail view is a real
    one: a non-zero chat id, a non-empty handle; the storage answers.) *)
Theorem toggle_flips_and_twice_restores :
  forall (e : Env) (c : Context) (rest : list Context),
    stack e = c :: rest ->
    faults (world e) = [] ->
    (forall (k : Z) (row : ChannelRow),
        group (ctx_state c) = ChannelMenu ->
        dict_get (dialog_data c) "channel_id" = VInt k -> k <> 0 ->
        List.find (channel_has k) (channels (world e)) = Some row ->
        channel_status row = "True" \/ channel_status row = "False" ->
        let other := if String.eqb (channel_status row) "True" then "False" else "True" in
        let r1 := handle_toggle_channel_op_status e in
        let r2 := handle_toggle_channel_op_status (snd r1) in
        fst r1 = Ret tt /\
        trace (snd r1) =
          trace e ++ [EvDb (GetChannel (VInt k));
                      EvDb (UpdateChannelStatus other (VInt k));
                      EvSwitchTo ChannelMenu_menu] /\
        current_state (snd r1) = Some ChannelMenu_menu /\
        (exists row1 : ChannelRow,
            List.find (channel_has k) (channels (world (snd r1))) = Some row1 /\
            channel_status row1 = other /\
            channel_status row1 <> channel_status row /\
            channel_id row1 = channel_id row /\
            channel_name row1 = channel_name row /\
            channel_username row1 = channel_username row /\
            channel_col4 row1 = channel_col4 row /\
            channel_url row1 = channel_url row) /\
        fst r2 = Ret tt /\
        current_state (snd r2) = Some ChannelMenu_menu /\
        List.find (channel_has k) (channels (world (snd r2))) = Some row) /\
    (forall (u : string) (row : BotRow),
        group (ctx_state c) = BotMenu ->
        dict_get (dialog_data c) "bot_username" = VStr u -> u <> "" ->
        List.find (bot_has u) (bots (world e)) = Some row ->
        bot_status row = "True" \/ bot_status row = "False" ->
        let other := if String.eqb (bot_status row) "True" then "False" else "True" in
        let r1 := handle_toggle_bot_op_status e in
        let r2 := handle_toggle_bot_op_status (snd r1) in
        fst r1 = Ret tt /\
        trace (snd r1) =
          trace e ++ [EvDb (GetBot (VStr u));
                      EvDb (UpdateBotStatus other (VStr u));
                      EvSwitchTo BotMenu_menu] /\
        current_state (snd r1) = Some BotMenu_menu /\
        (exists row1 : BotRow,
            List.find (bot_has u) (bots (world (snd r1))) = Some row1 /\
            bot_status row1 = other /\
            bot_status row1 <> bot_status row /\
            bot_name row1 = bot_name row /\
            bot_username row1 = bot_username row /\
            bot_url row1 = bot_url row) /\
        fst r2 = Ret tt /\
        current_state (snd r2) = Some BotMenu_menu /\
        List.find (bot_has u) (bots (world (snd r2))) = Some row).
Proof.
  intros e c rest Hs Hf. split.
  - intros k row Hg Hk Hk0 Hrow Hlit other r1 r2.
    fold (toggled (channel_status row)) in other.
    assert (H1 := toggle_channel_run e c rest k row Hs Hg Hf Hk Hk0 Hrow).
    fold r1 in H1. fold other in H1.
    assert (Hfind1 : List.find (channel_has k) (channels (world (snd r1))) =
                     Some (set_channel_status other row)).
    { rewrite H1. simpl. rewrite find_update_channel_rows, Hrow. reflexivity. }
    assert (H2 := toggle_channel_run (snd r1) (with_state ChannelMenu_menu c) rest k
                    (set_channel_status other row)).
    fold r2 in H2. rewrite H1 in H2 at 1 2 3. simpl in H2.
    specialize (H2 eq_refl eq_refl Hf Hk Hk0).
    rewrite H1 in Hfind1. simpl in Hfind1. specialize (H2 Hfind1).
    rewrite H2. rewrite H1. simpl.
    split; [reflexivity|]. split; [reflexivity|]. split; [reflexivity|].
    split; [|split; [reflexivity|]; split; [reflexivity|]].
    + exists (set_channel_status other row).
      split; [rewrite find_update_channel_rows, Hrow; reflexivity|].
      split; [reflexivity|].
      split; [|repeat split].
      simpl. unfold other, toggled.
      destruct Hlit as [-> | ->]; simpl; discriminate.
    + rewrite !find_update_channel_rows, Hrow. simpl.
      unfold other. rewrite (toggled_twice _ Hlit).
      rewrite set_channel_status_back. reflexivity.
  - intros u row Hg Hk Hk0 Hrow Hlit other r1 r2.
    fold (toggled (bot_status row)) in other.
    assert (H1 := toggle_bot_run e c rest u row Hs Hg Hf Hk Hk0 Hrow).
    fold r1 in H1. fold other in H1.
    assert (Hfind1 : List.find (bot_has u) (bots (world (snd r1))) =
                     Some (set_bot_status other row)).
    { rewrite H1. simpl. rewrite find_update_bot_rows, Hrow. reflexivity. }
    assert (H2 := toggle_bot_run (snd r1) (with_state BotMenu_menu c) rest u
                    (set_bot_status other row)).
    fold r2 in H2. rewrite H1 in H2 at 1 2 3. simpl in H2.
    specialize (H2 eq_refl eq_refl Hf Hk Hk0).
    rewrite H1 in Hfind1. simpl in Hfind1. specialize (H2 Hfind1).
    rewrite H2. rewrite H1. simpl.
    split; [reflexivity|]. split; [reflexivity|]. split; [reflexivity|].
    split; [|split; [reflexivity|]; split; [reflexivity|]].
    + exists (set_bot_status other row).
      split; [rewrite find_update_bot_rows, Hrow; reflexivity|].
      split; [reflexivity|].
      split; [|repeat split].
      simpl. unfold other, toggled.
      destruct Hlit as [-> | ->]; simpl; discriminate.
    + rewrite !find_update_bot_rows, Hrow. simpl.
      unfold other. rewrite (toggled_twice _ Hlit).
      rewrite set_bot_status_back. reflexivity.
Qed.

Lemma toggle_flips_and_twice_restores_witness :
  (exists row1 : ChannelRow,
      List.find (channel_has 555)
        (channels (world (snd (handle_toggle_channel_op_status (at_channel_menu "True")))))
        = Some row1 /\
      channel_status row1 = "False") /\
  List.find (channel_has 555)
    (channels (world (snd (handle_toggle_channel_op_status
       (snd (handle_toggle_channel_op_status (at_channel_menu "True")))))))
    = Some (sample_channel 555 "True") /\
  (exists row1 : BotRow,
      List.find (bot_has "helper")
        (bots (world (snd (handle_toggle_bot_op_status (at_bot_menu "False")))))
        = Some row1 /\
      bot_status row1 = "True") /\
  List.find (bot_has "helper")
    (bots (world (snd (handle_toggle_bot_op_status
       (snd (handle_toggle_bot_op_status (at_bot_menu "False")))))))
    = Some (sample_bot "helper" "False").
Proof.
  destruct (proj1 (toggle_flips_and_twice_restores (at_channel_menu "True") _ _ eq_refl eq_refl)
              555 (sample_channel 555 "True") eq_refl eq_refl ltac:(discriminate) eq_refl
              (or_introl eq_refl))
    as (_ & _ & _ & (c1 & Hc1 & Hcs & _) & _ & _ & Hc2).
  destruct (proj2 (toggle_flips_and_twice_restores (at_bot_menu "False") _ _ eq_refl eq_refl)
              "helper" (sample_bot "helper" "False") eq_refl eq_refl ltac:(discriminate) eq_refl
              (or_intror eq_refl))
    as (_ & _ & _ & (b1 & Hb1 & Hbs & _) & _ & _ & Hb2).
  split; [exists c1; split; [exact Hc1 | exact Hcs]|].
  split; [exact Hc2|].
  split; [exists b1; split; [exact Hb1 | exact Hbs]|].
  exact Hb2.
Defined.

(** ** C6: the bot username step *)

Lemma drop_one_at_cons (a : ascii) (s : string) :
  PyStr.drop_one ["@"] (String a s) = if Ascii.eqb "@" a then Some s else None.
Proof.
  cbn [PyStr.drop_one PyStr.drop_prefix].
  destruct (Ascii.eqb "@" a); reflexivity.
Qed.

Lemma lstrip_fuel_at (n : nat) :
  forall s : string,
    (String.length s <= n)%nat ->
    exists k : nat,
      s = ats k +:+ PyStr.lstrip_fuel n ["@"] s /\
      PyStr.drop_prefix "@" (PyStr.lstrip_fuel n ["@"] s) = None.
Proof.
  induction n as [|n IH]; intros s Hlen.
  - destruct s as [|a s']; [|simpl in Hlen; lia].
    exists O. split; reflexivity.
  - destruct s as [|a s'].
    + exists O. split; reflexivity.
    + simpl in Hlen. cbn [PyStr.lstrip_fuel]. rewrite drop_one_at_cons.
      destruct (Ascii.eqb "@" a) eqn:Ha.
      * apply Ascii.eqb_eq in Ha. subst a.
        destruct (IH s' ltac:(lia)) as [k [Hk Hnone]].
        exists (S k). split; [|exact Hnone].
        rewrite Hk at 1. reflexivity.
      * exists O. split; [reflexivity|].
        cbn [PyStr.drop_prefix]. rewrite Ha. reflexivity.
Qed.

(** [lstrip("@")] removes the whole run of leading "@". *)
Lemma lstrip_at_spec (s : string) :
  exists k : nat,
    s = ats k +:+ PyStr.lstrip_at s /\
    PyStr.drop_prefix "@" (PyStr.lstrip_at s) = None.
Proof.
  unfold PyStr.lstrip_at, PyStr.lstrip_chars. apply lstrip_fuel_at. lia.
Qed.

(** C6 (amended). Bot username step: the handle is the input stripped of
    surrounding whitespace and then of every leading "@", the rest kept as
    given. When the storage answers, a handle that is already stored keeps
    the flow in the username state with the discriminator "already_exists";
    otherwise the handle is stashed and the flow advances to the URL
    state. *)
Theorem username_step_strips_all_leading_ats :
  forall (e : Env) (c : Context) (rest : list Context) (message : Message) (t : string),
    stack e = c :: rest ->
    group (ctx_state c) = AddBotState ->
    faults (world e) = [] ->
    nonempty_text message = Some t ->
    let handle := PyStr.lstrip_at (PyStr.strip t) in
    (exists k : nat, PyStr.strip t = ats k +:+ handle) /\
    PyStr.drop_prefix "@" handle = None /\
    handle_bot_username_input message e =
      match List.find (bot_has handle) (bots (world e)) with
      | Some _ =>
          (Ret tt,
           mk_env
             (with_dialog_data
                (<["msg_type" := VStr "already_exists"]> (dialog_data c)) c :: rest)
             (world e)
             (trace e ++ [EvDb (GetBot (VStr handle));
                          EvSetData "msg_type" (VStr "already_exists")]))
      | None =>
          (Ret tt,
           mk_env
             ({| ctx_state := AddBotState_get_bot_link;
                 start_data := start_data c;
                 dialog_data := <["bot_username" := VStr handle]> (dialog_data c) |} :: rest)
             (world e)
             (trace e ++ [EvDb (GetBot (VStr handle));
                          EvSetData "bot_username" (VStr handle);
                          EvSwitchTo AddBotState_get_bot_link]))
      end.
Proof.
  intros e c rest message t Hs Hg Hf Ht handle.
  destruct (lstrip_at_spec (PyStr.strip t)) as [k [Hk Hnone]].
  split; [exists k; exact Hk|]. split; [exact Hnone|].
  destruct e as [s w tr]. simpl in *. subst s.
  unfold handle_bot_username_input. rewrite Ht.
  unfold BotActions.get_bot, db. unfold_manager. simpl. rewrite Hf. simpl.
  fold handle.
  destruct (List.find (bot_has handle) (bots w)); simpl.
  - unfold mk_env, with_dialog_data. rewrite <- !app_assoc. reflexivity.
  - rewrite Hg. simpl. unfold mk_env. rewrite <- !app_assoc. reflexivity.
Qed.

Lemma username_step_witness :
  scratch (snd (handle_bot_username_input (text_message " @@helper ") at_username_step))
    "bot_username" = Some (VStr "helper") /\
  current_state (snd (handle_bot_username_input (text_message " @@helper ") at_username_step))
    = Some AddBotState_get_bot_link.
Proof.
  destruct (username_step_strips_all_leading_ats at_username_step _ _
              (text_message " @@helper ") " @@helper " eq_refl eq_refl eq_refl eq_refl)
    as (_ & _ & Hrun).
  rewrite Hrun. split; vm_compute; reflexivity.
Defined.

(** The statement as the specification words it fails on "@@helper": both "@" go, not one. *)
Lemma username_step_drops_more_than_one_at :
  ~ stores_claimed_handle at_username_step "@@helper".
Proof.
  unfold stores_claimed_handle. intros H. vm_compute in H. discriminate H.
Qed.

(** ** C7: input of the wrong shape *)





(** ** C8: the detail views *)

Lemma string_app_assoc (x y z : string) : (x +:+ y) +:+ z = x +:+ y +:+ z.
Proof.
  induction x as [|a x IH]; [reflexivity|].
  change (String a ((x +:+ y) +:+ z) = String a (x +:+ y +:+ z)).
  f_equal. exact IH.
Qed.

Lemma contains_here (sub b : string) : contains (sub +:+ b) sub.
Proof. exists "", b. reflexivity. Qed.

Lemma contains_later (x s sub : string) : contains s sub -> contains (x +:+ s) sub.
Proof.
  intros [a [b ->]]. exists (x +:+ a), b. rewrite string_app_assoc. reflexivity.
Qed.

Lemma contains_labelled (label x rest : string) :
  contains (label +:+ x +:+ rest) (label +:+ x).
Proof. exists "", rest. rewrite string_app_assoc. reflexivity. Qed.

Ltac find_field :=
  repeat first [ apply contains_labelled | apply contains_here | apply contains_later ].

Lemma channel_info_fields (row : ChannelRow) :
  contains (channel_info row) ("🆔 <b>ID:</b> <code>" +:+ pretty (channel_id row)) /\
  contains (channel_info row) ("📛 <b>Название:</b> " +:+ channel_name row) /\
  contains (channel_info row)
    ("🔗 <b>Username:</b> @" +:+
     (if String.eqb (channel_username row) "" then "не указан" else channel_username row)) /\
  contains (channel_info row)
    ("📶 <b>Статус в ОП:</b> " +:+
     (if String.eqb (channel_status row) "True" then "✅ Активен" else "❌ Неактивен")) /\
  contains (channel_info row) ("🔗 <b>Ссылка:</b> " +:+ channel_url row).
Proof.
  unfold channel_info, status_line, text_or, PyStr.of_Z.
  repeat split; find_field.
Qed.

Lemma bot_info_fields (row : BotRow) :
  contains (bot_info row) ("📛 <b>Название:</b> " +:+ bot_name row) /\
  contains (bot_info row) ("🔗 <b>Username:</b> @" +:+ bot_username row) /\
  contains (bot_info row)
    ("📶 <b>Статус в ОП:</b> " +:+
     (if String.eqb (bot_status row) "True" then "✅ Активен" else "❌ Неактивен")) /\
  contains (bot_info row) ("🔗 <b>Ссылка:</b> " +:+ bot_url row).
Proof.
  unfold bot_info, status_line.
  repeat split; find_field.
Qed.

Lemma channel_view_run
    (e : Env) (c : Context) (rest : list Context) (sd : gmap string value) (k : Z) :
  stack e = c :: rest ->
  start_data c = Some sd ->
  faults (world e) = [] ->
  dict_get sd "channel_id" = VInt k ->
  get_channel_info_data e =
    (Ret match List.find (channel_has k) (channels (world e)) with
         | None => {[ "channel_data" := "❌ Канал не найден"; "op_button" := "—" ]}
         | Some row =>
             {[ "channel_data" := channel_info row;
                "op_button" := op_button_label (String.eqb (channel_status row) "True") ]}
         end,
     mk_env (with_dialog_data (<["channel_id" := VInt k]> (dialog_data c)) c :: rest)
       (world e)
       (trace e ++ [EvSetData "channel_id" (VInt k); EvDb (GetChannel (VInt k))])).
Proof.
  destruct e as [s w tr]. simpl. intros -> Hsd Hf Hk.
  unfold get_channel_info_data, ChannelActions.get_channel, db. unfold_manager.
  simpl. rewrite Hsd. simpl. rewrite Hk. simpl. rewrite Hf. simpl.
  destruct (List.find (channel_has k) (channels w)); simpl;
    unfold mk_env, with_dialog_data; rewrite <- !app_assoc; reflexivity.
Qed.

Lemma bot_view_run
    (e : Env) (c : Context) (rest : list Context) (sd : gmap string value) (u : string) :
  stack e = c :: rest ->
  start_data c = Some sd ->
  faults (world e) = [] ->
  dict_get sd "bot_username" = VStr u ->
  get_bot_info_data e =
    (Ret match List.find (bot_has u) (bots (world e)) with
         | None => {[ "bot_data" := "❌ Бот не найден"; "op_button" := "—" ]}
         | Some row =>
             {[ "bot_data" := bot_info row;
                "op_button" := op_button_label (String.eqb (bot_status row) "True") ]}
         end,
     mk_env (with_dialog_data (<["bot_username" := VStr u]> (dialog_data c)) c :: rest)
       (world e)
       (trace e ++ [EvSetData "bot_username" (VStr u); EvDb (GetBot (VStr u))])).
Proof.
  destruct e as [s w tr]. simpl. intros -> Hsd Hf Hk.
  unfold get_bot_info_data, BotActions.get_bot, db. unfold_manager.
  simpl. rewrite Hsd. simpl. rewrite Hk. simpl. rewrite Hf. simpl.
  destruct (List.find (bot_has u) (bots w)); simpl;
    unfold mk_env, with_dialog_data; rewrite <- !app_assoc; reflexivity.
Qed.

Lemma toggle_absent_channel
    (e : Env) (c : Context) (rest : list Context) (k : Z) :
  stack e = c :: rest ->
  faults (world e) = [] ->
  dict_get (dialog_data c) "channel_id" = VInt k ->
  List.find (channel_has k) (channels (world e)) = None ->
  toggle_is_inert handle_toggle_channel_op_status
    (if k =? 0 then [] else [EvDb (GetChannel (VInt k))]) e.
Proof.
  destruct e as [s w tr]. simpl. intros -> Hf Hk Hrow.
  unfold toggle_is_inert, handle_toggle_channel_op_status.
  unfold ChannelActions.get_channel, db. unfold_manager.
  simpl. rewrite Hk. simpl.
  destruct (k =? 0); simpl.
  - rewrite app_nil_r. reflexivity.
  - rewrite Hf. simpl. rewrite Hrow. reflexivity.
Qed.

Lemma toggle_absent_bot
    (e : Env) (c : Context) (rest : list Context) (u : string) :
  stack e = c :: rest ->
  faults (world e) = [] ->
  dict_get (dialog_data c) "bot_username" = VStr u ->
  List.find (bot_has u) (bots (world e)) = None ->
  toggle_is_inert handle_toggle_bot_op_status
    (if String.eqb u "" then [] else [EvDb (GetBot (VStr u))]) e.
Proof.
  destruct e as [s w tr]. simpl. intros -> Hf Hk Hrow.
  unfold toggle_is_inert, handle_toggle_bot_op_status.
  unfold BotActions.get_bot, db. unfold_manager.
  simpl. rewrite Hk. simpl.
  destruct (String.eqb u ""); simpl.
  - rewrite app_nil_r. reflexivity.
  - rewrite Hf. simpl. rewrite Hrow. reflexivity.
Qed.

Lemma toggle_present_channel
    (e : Env) (c : Context) (rest : list Context) (k : Z) (row : ChannelRow) :
  stack e = c :: rest ->
  group (ctx_state c) = ChannelMenu ->
  faults (world e) = [] ->
  dict_get (dialog_data c) "channel_id" = VInt k -> k <> 0 ->
  List.find (channel_has k) (channels (world e)) = Some row ->
  exists row',
    List.find (channel_has k)
      (channels (world (snd (handle_toggle_channel_op_status e)))) = Some row' /\
    channel_status row' =
      if String.eqb (channel_status row) "True" then "False" else "True".
Proof.
  intros Hs Hg Hf Hk Hk0 Hrow.
  rewrite (toggle_channel_run e c rest k row Hs Hg Hf Hk Hk0 Hrow). simpl.
  rewrite find_update_channel_rows, Hrow. simpl.
  eexists. split; reflexivity.
Qed.

Lemma toggle_present_bot
    (e : Env) (c : Context) (rest : list Context) (u : string) (row : BotRow) :
  stack e = c :: rest ->
  group (ctx_state c) = BotMenu ->
  faults (world e) = [] ->
  dict_get (dialog_data c) "bot_username" = VStr u -> u <> "" ->
  List.find (bot_has u) (bots (world e)) = Some row ->
  exists row',
    List.find (bot_has u)
      (bots (world (snd (handle_toggle_bot_op_status e)))) = Some row' /\
    bot_status row' =
      if String.eqb (bot_status row) "True" then "False" else "True".
Proof.
  intros Hs Hg Hf Hk Hk0 Hrow.
  rewrite (toggle_bot_run e c rest u row Hs Hg Hf Hk Hk0 Hrow). simpl.
  rewrite find_update_bot_rows, Hrow. simpl.
  eexists. split; reflexivity.
Qed.

(** C8. Detail view, channel and bot. The getter looks the key of the
    start data up. If nothing is stored under it, the view is the
    "not found" placeholder with a toggle button labelled with a dash; that
    button is not disabled but runs the toggle handler like any other: a
    press looks the key up again and, the entity still being absent,
    returns with the session and the world as they were, whereas if the
    entity has been stored by then the press toggles it. If an entity is
    stored, the view text shows each of its fields under its label (the id
    in decimal, the name, the username or "не указан" for an empty one,
    the status line, the url), and the label of the toggle button depends
    only on whether the stored status is the literal "True". *)
Theorem detail_view :
  forall (e : Env) (c : Context) (rest : list Context) (sd : gmap string value),
    stack e = c :: rest ->
    start_data c = Some sd ->
    faults (world e) = [] ->
    (forall k : Z,
        dict_get sd "channel_id" = VInt k ->
        let r := get_channel_info_data e in
        match List.find (channel_has k) (channels (world e)) with
        | None =>
            fst r = Ret {[ "channel_data" := "❌ Канал не найден"; "op_button" := "—" ]} /\
            channel_toggle_op_status_btn (snd r) =
              (Ret tt,
               mk_env (stack (snd r)) (world (snd r))
                 (trace (snd r) ++
                  if k =? 0 then [] else [EvDb (GetChannel (VInt k))])) /\
            (forall (rows : list ChannelRow) (row : ChannelRow),
                group (ctx_state c) = ChannelMenu -> k <> 0 ->
                List.find (channel_has k) rows = Some row ->
                exists row',
                  List.find (channel_has k)
                    (channels (world (snd (channel_toggle_op_status_btn
                                             (channels_become rows (snd r))))))
                    = Some row' /\
                  channel_status row' =
                    if String.eqb (channel_status row) "True" then "False" else "True")
        | Some row =>
            fst r =
              Ret {[ "channel_data" := channel_info row;
                     "op_button" :=
                       if String.eqb (channel_status row) "True"
                       then "🚫 Убрать из ОП" else "➕ Добавить в ОП" ]} /\
            contains (channel_info row)
              ("🆔 <b>ID:</b> <code>" +:+ pretty (channel_id row)) /\
            contains (channel_info row) ("📛 <b>Название:</b> " +:+ channel_name row) /\
            contains (channel_info row)
              ("🔗 <b>Username:</b> @" +:+
               (if String.eqb (channel_username row) ""
                then "не указан" else channel_username row)) /\
            contains (channel_info row)
              ("📶 <b>Статус в ОП:</b> " +:+
               (if String.eqb (channel_status row) "True"
                then "✅ Активен" else "❌ Неактивен")) /\
            contains (channel_info row) ("🔗 <b>Ссылка:</b> " +:+ channel_url row)
        end) /\
    (forall u : string,
        dict_get sd "bot_username" = VStr u ->
        let r := get_bot_info_data e in
        match List.find (bot_has u) (bots (world e)) with
        | None =>
            fst r = Ret {[ "bot_data" := "❌ Бот не найден"; "op_button" := "—" ]} /\
            bot_toggle_op_status_btn (snd r) =
              (Ret tt,
               mk_env (stack (snd r)) (world (snd r))
                 (trace (snd r) ++
                  if String.eqb u "" then [] else [EvDb (GetBot (VStr u))])) /\
            (forall (rows : list BotRow) (row : BotRow),
                group (ctx_state c) = BotMenu -> u <> "" ->
                List.find (bot_has u) rows = Some row ->
                exists row',
                  List.find (bot_has u)
                    (bots (world (snd (bot_toggle_op_status_btn
                                         (bots_become rows (snd r))))))
                    = Some row' /\
                  bot_status row' =
                    if String.eqb (bot_status row) "True" then "False" else "True")
        | Some row =>
            fst r =
              Ret {[ "bot_data" := bot_info row;
                     "op_button" :=
                       if String.eqb (bot_status row) "True"
                       then "🚫 Убрать из ОП" else "➕ Добавить в ОП" ]} /\
            contains (bot_info row) ("📛 <b>Название:</b> " +:+ bot_name row) /\
            contains (bot_info row) ("🔗 <b>Username:</b> @" +:+ bot_username row) /\
            contains (bot_info row)
              ("📶 <b>Статус в ОП:</b> " +:+
               (if String.eqb (bot_status row) "True"
                then "✅ Активен" else "❌ Неактивен")) /\
            contains (bot_info row) ("🔗 <b>Ссылка:</b> " +:+ bot_url row)
        end).
Proof.
  intros e c rest sd Hs Hsd Hf. split.
  - intros k Hk r. subst r.
    rewrite (channel_view_run e c rest sd k Hs Hsd Hf Hk).
    assert (Hkey : dict_get
              (dialog_data (with_dialog_data (<["channel_id" := VInt k]> (dialog_data c)) c))
              "channel_id" = VInt k).
    { unfold dict_get, with_dialog_data. cbn [dialog_data].
      rewrite lookup_insert_eq. reflexivity. }
    destruct (List.find (channel_has k) (channels (world e))) as [row|] eqn:Hrow; simpl.
    + split; [reflexivity | apply channel_info_fields].
    + split; [reflexivity|]. split.
      * exact (toggle_absent_channel
                 (mk_env
                    (with_dialog_data (<["channel_id" := VInt k]> (dialog_data c)) c :: rest)
                    (world e)
                    (trace e ++ [EvSetData "channel_id" (VInt k); EvDb (GetChannel (VInt k))]))
                 _ rest k eq_refl Hf Hkey Hrow).
      * intros rows row Hg Hk0 Hfind.
        exact (toggle_present_channel
                 (channels_become rows
                    (mk_env
                       (with_dialog_data (<["channel_id" := VInt k]> (dialog_data c)) c :: rest)
                       (world e)
                       (trace e ++ [EvSetData "channel_id" (VInt k); EvDb (GetChannel (VInt k))])))
                 _ rest k row eq_refl Hg Hf Hkey Hk0 Hfind).
  - intros u Hk r. subst r.
    rewrite (bot_view_run e c rest sd u Hs Hsd Hf Hk).
    assert (Hkey : dict_get
              (dialog_data (with_dialog_data (<["bot_username" := VStr u]> (dialog_data c)) c))
              "bot_username" = VStr u).
    { unfold dict_get, with_dialog_data. cbn [dialog_data].
      rewrite lookup_insert_eq. reflexivity. }
    destruct (List.find (bot_has u) (bots (world e))) as [row|] eqn:Hrow; simpl.
    + split; [reflexivity | apply bot_info_fields].
    + split; [reflexivity|]. split.
      * exact (toggle_absent_bot
                 (mk_env
                    (with_dialog_data (<["bot_username" := VStr u]> (dialog_data c)) c :: rest)
                    (world e)
                    (trace e ++ [EvSetData "bot_username" (VStr u); EvDb (GetBot (VStr u))]))
                 _ rest u eq_refl Hf Hkey Hrow).
      * intros rows row Hg Hu0 Hfind.
        exact (toggle_present_bot
                 (bots_become rows
                    (mk_env
                       (with_dialog_data (<["bot_username" := VStr u]> (dialog_data c)) c :: rest)
                       (world e)
                       (trace e ++ [EvSetData "bot_username" (VStr u); EvDb (GetBot (VStr u))])))
                 _ rest u row eq_refl Hg Hf Hkey Hu0 Hfind).
Qed.

Lemma detail_view_witness :
  fst (get_channel_info_data (opening_channel_view 777)) =
    Ret {[ "channel_data" := "❌ Канал не найден"; "op_button" := "—" ]} /\
  (exists row',
      List.find (channel_has 777)
        (channels (world (snd (channel_toggle_op_status_btn
           (channels_become [sample_channel 777 "True"]
              (snd (get_channel_info_data (opening_channel_view 777))))))))
        = Some row' /\
      channel_status row' = "False") /\
  fst (get_channel_info_data (opening_channel_view 555)) =
    Ret {[ "channel_data" :=
"📢 <b>Полная информация о канале</b>

🆔 <b>ID:</b> <code>555</code>
📛 <b>Название:</b> Chan
🔗 <b>Username:</b> @chan
📶 <b>Статус в ОП:</b> ✅ Активен
🔗 <b>Ссылка:</b> https://t.me/chan
";
           "op_button" := "🚫 Убрать из ОП" ]} /\
  fst (get_bot_info_data (opening_bot_view "helper")) =
    Ret {[ "bot_data" :=
"🤖 <b>Полная информация о боте</b>

📛 <b>Название:</b> Helper
🔗 <b>Username:</b> @helper
📶 <b>Статус в ОП:</b> ❌ Неактивен
🔗 <b>Ссылка:</b> https://t.me/helper
";
           "op_button" := "➕ Добавить в ОП" ]}.
Proof.
  split; [|split; [|split]].
  - exact (proj1 (proj1 (detail_view (opening_channel_view 777) _ _ _
                           eq_refl eq_refl eq_refl) 777 eq_refl)).
  - exact (proj2 (proj2 (proj1 (detail_view (opening_channel_view 777) _ _ _
                                  eq_refl eq_refl eq_refl) 777 eq_refl))
             [sample_channel 777 "True"] (sample_channel 777 "True")
             eq_refl ltac:(discriminate) eq_refl).
  - exact (proj1 (proj1 (detail_view (opening_channel_view 555) _ _ _
                           eq_refl eq_refl eq_refl) 555 eq_refl)).
  - exact (proj1 (proj2 (detail_view (opening_bot_view "helper") _ _ _
                           eq_refl eq_refl eq_refl) "helper" eq_refl)).
Defined.

(** The statement as the specification words it fails on the sample views:
    the toggle of the "not found" view is not disabled, a press on it runs
    the handler, which queries the store. *)
Lemma not_found_toggle_is_not_disabled :
  ~ disabled channel_toggle_op_status_btn
      (snd (get_channel_info_data (opening_channel_view 777))) /\
  ~ disabled bot_toggle_op_status_btn
      (snd (get_bot_info_data (opening_bot_view "ghost"))).
Proof.
  split; intros H;
    apply (f_equal (fun r => db_calls (trace (snd r)))) in H;
    vm_compute in H; discriminate H.
Qed.

(** * Further properties of the handlers *)

(** ** The gate: what it leaves alone, and how it fails *)

Lemma keeps_bind {A B} (m : M A) (f : A -> M B) :
  keeps_session_and_rows m ->
  (forall a, keeps_session_and_rows (f a)) ->
  keeps_session_and_rows (m ≫= f).
Proof.
  intros Hm Hf e. unfold mbind, M_bind.
  specialize (Hm e). destruct (m e) as [[a|x] e1]; simpl in *.
  - destruct (Hf a e1) as [H1 [H2 H3]]. destruct Hm as [H4 [H5 H6]].
    unfold same_rows. repeat split; congruence.
  - exact Hm.
Qed.

Lemma keeps_db_read {A} (c : db_call) (f : World -> A) :
  keeps_session_and_rows (db c (fun w => (Ret (f w), w))).
Proof.
  intros e. unfold db, same_rows.
  destruct (faults (world e)) as [|[|] fs]; simpl; repeat split; reflexivity.
Qed.

Lemma keeps_emit (ev : event) : keeps_session_and_rows (emit ev).
Proof. intros e. unfold same_rows. simpl. repeat split; reflexivity. Qed.

Lemma keeps_get_chat_member (chat user : Z) :
  keeps_session_and_rows (get_chat_member chat user).
Proof.
  intros e. unfold get_chat_member, same_rows.
  destruct (chat_member (world e) chat user); simpl; repeat split; reflexivity.
Qed.

Lemma keeps_gate_loop (user : Z) (chans : list ChannelRow) :
  forall acc : list ChannelRow, keeps_session_and_rows (gate_loop user chans acc).
Proof.
  induction chans as [|c chans IH]; intros acc.
  - intros e. unfold same_rows. simpl. repeat split; reflexivity.
  - simpl. destruct (String.eqb (channel_status c) "True"); [|apply IH].
    apply keeps_bind; [apply keeps_get_chat_member|].
    intros role. destruct (negb (is_subscribed role)); apply IH.
Qed.

Lemma keeps_gate (user : Z) :
  keeps_session_and_rows (check_channel_sub_call user).
Proof.
  unfold check_channel_sub_call.
  apply keeps_bind; [apply keeps_db_read|]. intros cs.
  apply keeps_bind; [apply keeps_db_read|]. intros bs.
  apply keeps_bind; [apply keeps_gate_loop|]. intros ns.
  apply keeps_emit.
Qed.

(** X1. Both gate handlers, whatever the storage and the endpoint do, leave
    the dialog stack and the stored channels and bots as they were. *)
Theorem gate_leaves_session_and_rows_alone :
  forall (e : Env) (message : Message) (call_user : Z),
    let r_message := check_channel_sub_message message e in
    let r_call := check_channel_sub_call call_user e in
    stack (snd r_message) = stack e /\ same_rows e (snd r_message) /\
    stack (snd r_call) = stack e /\ same_rows e (snd r_call).
Proof.
  intros e message call_user r_message r_call.
  destruct (keeps_gate (from_user_id message) e) as [H1 H2].
  destruct (keeps_gate call_user e) as [H3 H4].
  repeat split; solve [apply H1 | apply H2 | apply H3 | apply H4].
Qed.

Lemma gate_loop_answered_prefix (user : Z) (pre rest : list ChannelRow) :
  forall (acc : list ChannelRow) (s : list Context) (w : World) (t : list event),
    endpoint_answers w user pre ->
    gate_loop user (pre ++ rest) acc (mk_env s w t) =
    gate_loop user rest (acc ++ List.filter (unsatisfied w user) pre)
      (mk_env s w (t ++ map (query_of user) (List.filter active pre))).
Proof.
  induction pre as [|c pre IH]; intros acc s w t Hans.
  - simpl. rewrite !app_nil_r. reflexivity.
  - assert (Hrest : endpoint_answers w user pre).
    { intros c' Hin. apply Hans. right. exact Hin. }
    simpl. unfold unsatisfied at 1. fold (active c).
    destruct (active c) eqn:Hact; simpl.
    + destruct (Hans c (or_introl eq_refl) Hact) as [role Hrole].
      unfold mbind, M_bind, get_chat_member. simpl. rewrite Hrole.
      fold (mk_env s w (t ++ [EvGetChatMember (channel_id c) user])).
      destruct (is_subscribed role); simpl; rewrite IH by exact Hrest;
        unfold query_of at 2; rewrite <- !app_assoc; reflexivity.
    + apply IH. exact Hrest.
Qed.

Lemma gate_call_aborts
    (e : Env) (user : Z) (pre post : list ChannelRow) (c : ChannelRow) :
  faults (world e) = [] ->
  channels (world e) = pre ++ c :: post ->
  endpoint_answers (world e) user pre ->
  active c = true ->
  chat_member (world e) (channel_id c) user = None ->
  check_channel_sub_call user e =
    (Raise Exception,
     mk_env (stack e) (world e)
       (trace e ++ [EvDb GetAllChannels; EvDb GetAllBots] ++
        map (query_of user) (List.filter active pre) ++ [query_of user c])).
Proof.
  destruct e as [s w t]. simpl. intros Hf Hch Hans Hact Hnone.
  unfold check_channel_sub_call.
  unfold ChannelActions.get_all_channels, BotActions.get_all_bots.
  unfold mbind at 1. unfold M_bind at 1.
  fold (mk_env s w t). rewrite db_no_fault by exact Hf. simpl.
  unfold mbind at 1. unfold M_bind at 1.
  rewrite db_no_fault by exact Hf. simpl.
  unfold mbind at 1. unfold M_bind at 1.
  rewrite Hch. rewrite gate_loop_answered_prefix by exact Hans.
  simpl. unfold active in Hact. rewrite Hact.
  unfold mbind, M_bind, get_chat_member. simpl. rewrite Hnone.
  unfold mk_env, query_of. rewrite <- !app_assoc. reflexivity.
Qed.

(** X2. When the membership query raises for an active channel, the gate
    handler raises as well: the channels after it are not queried and no
    answer is sent to the user. *)
Theorem gate_aborts_on_failed_query :
  forall (e : Env) (message : Message) (pre post : list ChannelRow) (c : ChannelRow),
    faults (world e) = [] ->
    channels (world e) = pre ++ c :: post ->
    endpoint_answers (world e) (from_user_id message) pre ->
    active c = true ->
    chat_member (world e) (channel_id c) (from_user_id message) = None ->
    let user := from_user_id message in
    let aborted :=
      (Raise Exception,
       mk_env (stack e) (world e)
         (trace e ++ [EvDb GetAllChannels; EvDb GetAllBots] ++
          map (query_of user) (List.filter active pre) ++ [query_of user c])) in
    check_channel_sub_message message e = aborted /\
    check_channel_sub_call user e = aborted.
Proof.
  intros e message pre post c Hf Hch Hans Hact Hnone user aborted.
  split; apply (gate_call_aborts e user pre post c); assumption.
Qed.

Lemma gate_aborts_witness :
  check_channel_sub_message (text_message "hi") (mk_env [] flaky_world []) =
    (Raise Exception,
     mk_env [] flaky_world
       [EvDb GetAllChannels; EvDb GetAllBots; EvGetChatMember 1 7; EvGetChatMember 2 7]).
Proof.
  refine (proj1 (gate_aborts_on_failed_query (mk_env [] flaky_world []) (text_message "hi")
                   [sample_channel 1 "True"] [sample_channel 3 "True"]
                   (sample_channel 2 "True") eq_refl eq_refl _ eq_refl eq_refl)).
  intros c [<-|[]] _. exists "left". reflexivity.
Defined.

(** ** The main menu *)

(** X3. Main menu getter, when the storage answers: it returns the stored
    channels and bots, flags telling whether each list is non-empty, and the
    message "not_found" exactly when both lists are empty, "start_msg"
    otherwise; either way the menu window has a text for the message. *)
Theorem op_menu_message_matches_rows :
  forall e : Env,
    faults (world e) = [] ->
    exists d : op_menu_data,
      get_op_menu_data e =
        (Ret d, mk_env (stack e) (world e)
                  (trace e ++ [EvDb GetAllChannels; EvDb GetAllBots])) /\
      omd_channel_data d = channels (world e) /\
      omd_bot_data d = bots (world e) /\
      (omd_has_channels d = true <-> channels (world e) <> []) /\
      (omd_has_bots d = true <-> bots (world e) <> []) /\
      (omd_msg_type d = "not_found" <->
         channels (world e) = [] /\ bots (world e) = []) /\
      (omd_msg_type d = "start_msg" <->
         ~ (channels (world e) = [] /\ bots (world e) = [])) /\
      is_Some (window_case OPMenu_menu !! omd_msg_type d).
Proof.
  intros [s w t] Hf. simpl in *.
  unfold get_op_menu_data, ChannelActions.get_all_channels, BotActions.get_all_bots, db.
  unfold_manager. simpl. rewrite Hf. simpl. rewrite Hf. simpl.
  eexists. split.
  { unfold mk_env. rewrite <- !app_assoc. reflexivity. }
  simpl.
  destruct (channels w) as [|c cs]; destruct (bots w) as [|b bs]; simpl;
    repeat split; try solve [intros; congruence | intros [? ?]; congruence
                            | intros ? [? ?]; congruence | intros; discriminate
                            | vm_compute; eauto].
  all: try (intros H; exfalso; apply H; split; reflexivity).
Qed.

Lemma op_menu_witness :
  exists d : op_menu_data,
    fst (get_op_menu_data at_op_menu) = Ret d /\ omd_msg_type d = "start_msg".
Proof.
  destruct (op_menu_message_matches_rows at_op_menu eq_refl)
    as (d & Hrun & _ & _ & _ & _ & _ & Hstart & _).
  exists d. split; [rewrite Hrun; reflexivity|].
  apply Hstart. intros [H _]. discriminate H.
Defined.

(** ** Deleting *)

Lemma delete_channel_run (e : Env) (c : Context) (rest : list Context) :
  stack e = c :: rest ->
  let key := dict_get (dialog_data c) "channel_id" in
  exists w',
    handle_delete_channel e =
      (Ret tt,
       mk_env (fresh_context OPMenu_menu :: c :: rest) w'
         (trace e ++
          (if truthy key then [EvDb (DeleteChannel key)] else []) ++
          [EvStart OPMenu_menu])) /\
    bots w' = bots (world e) /\
    incl (channels w') (channels (world e)).
Proof.
  destruct e as [s w t]. simpl. intros ->.
  unfold handle_delete_channel, ChannelActions.delete_channel, db. unfold_manager. simpl.
  destruct (truthy (dict_get (dialog_data c) "channel_id")); simpl.
  - destruct (dict_get (dialog_data c) "channel_id") as [|z|u|d];
      case_faults w; simpl; eexists;
      (split; [unfold mk_env, fresh_context; rewrite <- ?app_assoc; reflexivity|]);
      simpl; (split; [reflexivity|]);
      first [apply incl_refl | apply incl_filter].
  - exists w. split; [reflexivity|]. split; [reflexivity | apply incl_refl].
Qed.

Lemma delete_bot_run (e : Env) (c : Context) (rest : list Context) :
  stack e = c :: rest ->
  let key := dict_get (dialog_data c) "bot_username" in
  exists w',
    handle_delete_bot e =
      (Ret tt,
       mk_env (fresh_context OPMenu_menu :: c :: rest) w'
         (trace e ++
          (if truthy key then [EvDb (DeleteBot key)] else []) ++
          [EvStart OPMenu_menu])) /\
    channels w' = channels (world e) /\
    incl (bots w') (bots (world e)).
Proof.
  destruct e as [s w t]. simpl. intros ->.
  unfold handle_delete_bot, BotActions.delete_bot, db. unfold_manager. simpl.
  destruct (truthy (dict_get (dialog_data c) "bot_username")); simpl.
  - destruct (dict_get (dialog_data c) "bot_username") as [|z|u|d];
      case_faults w; simpl; eexists;
      (split; [unfold mk_env, fresh_context; rewrite <- ?app_assoc; reflexivity|]);
      simpl; (split; [reflexivity|]);
      first [apply incl_refl | apply incl_filter].
  - exists w. split; [reflexivity|]. split; [reflexivity | apply incl_refl].
Qed.

(** X4. The delete handlers, for every store and every storage fault: they
    return normally (a failure of the delete call is swallowed), they call
    delete only when the key kept in the scratch is true for Python, they
    never add or change a row, and they open the main OP menu on top of the
    detail dialog, which is not ended. *)
Theorem delete_always_opens_menu_on_top :
  forall (e : Env) (c : Context) (rest : list Context),
    stack e = c :: rest ->
    (let key := dict_get (dialog_data c) "channel_id" in
     let r := handle_delete_channel e in
     fst r = Ret tt /\
     stack (snd r) = fresh_context OPMenu_menu :: c :: rest /\
     added e (snd r)
       ((if truthy key then [EvDb (DeleteChannel key)] else []) ++ [EvStart OPMenu_menu]) /\
     bots (world (snd r)) = bots (world e) /\
     incl (channels (world (snd r))) (channels (world e))) /\
    (let key := dict_get (dialog_data c) "bot_username" in
     let r := handle_delete_bot e in
     fst r = Ret tt /\
     stack (snd r) = fresh_context OPMenu_menu :: c :: rest /\
     added e (snd r)
       ((if truthy key then [EvDb (DeleteBot key)] else []) ++ [EvStart OPMenu_menu]) /\
     channels (world (snd r)) = channels (world e) /\
     incl (bots (world (snd r))) (bots (world e))).
Proof.
  intros e c rest Hs. split.
  - destruct (delete_channel_run e c rest Hs) as (w' & Hrun & Hb & Hc).
    simpl. rewrite Hrun. unfold added. simpl. auto.
  - destruct (delete_bot_run e c rest Hs) as (w' & Hrun & Hb & Hc).
    simpl. rewrite Hrun. unfold added. simpl. auto.
Qed.

Lemma delete_witness :
  stack (snd (handle_delete_channel (at_channel_menu "True"))) =
    fresh_context OPMenu_menu :: stack (at_channel_menu "True") /\
  stack (snd (handle_delete_bot (at_bot_menu "True"))) =
    fresh_context OPMenu_menu :: stack (at_bot_menu "True").
Proof.
  split.
  - exact (proj1 (proj2 (proj1 (delete_always_opens_menu_on_top
                                  (at_channel_menu "True") _ _ eq_refl)))).
  - exact (proj1 (proj2 (proj2 (delete_always_opens_menu_on_top
                                  (at_bot_menu "True") _ _ eq_refl)))).
Defined.

(** ** From the list to the detail view and on *)

Lemma find_filter_out_channel (k : Z) (rows : list ChannelRow) :
  List.find (channel_has k) (List.filter (fun r => negb (channel_has k r)) rows) = None.
Proof.
  induction rows as [|r rows IH]; [reflexivity|].
  simpl. destruct (channel_has k r) eqn:Hk; simpl; [exact IH|].
  rewrite Hk. exact IH.
Qed.

(** X5. Channel list to deletion. When the item id does not parse as an
    integer, [handle_get_channel_info] does nothing at all. When it parses
    to a non-zero [k] and the storage answers, selecting the item, showing
    the detail view, pressing delete and confirming issues exactly one
    delete, for that same [k], after which no channel [k] is stored; the
    main menu ends up on top of the detail dialog, itself on top of the
    stack the selection started from. *)
Theorem select_view_delete_channel :
  forall (int_ : string -> option Z) (item_id : string) (e : Env),
    (int_ item_id = None -> handle_get_channel_info int_ item_id e = (Ret tt, e)) /\
    (forall k : Z,
        int_ item_id = Some k -> k <> 0 ->
        faults (world e) = [] ->
        let r := (handle_get_channel_info int_ item_id;;
                  get_channel_info_data;;
                  delete_channel_btn;;
                  channel_confirm_delete) e in
        fst r = Ret tt /\
        stack (snd r) =
          fresh_context OPMenu_menu ::
          {| ctx_state := ChannelMenu_delete_channel;
             start_data := Some {[ "channel_id" := VInt k ]};
             dialog_data := {[ "channel_id" := VInt k ]} |} :: stack e /\
        added e (snd r)
          [EvStart ChannelMenu_menu;
           EvSetData "channel_id" (VInt k); EvDb (GetChannel (VInt k));
           EvSwitchTo ChannelMenu_delete_channel;
           EvDb (DeleteChannel (VInt k)); EvStart OPMenu_menu] /\
        List.find (channel_has k) (channels (world (snd r))) = None /\
        bots (world (snd r)) = bots (world e)).
Proof.
  intros int_ item_id [s w t]. split.
  - intros Hnone. unfold handle_get_channel_info. rewrite Hnone. reflexivity.
  - intros k Hk Hk0 Hf r. simpl in Hf. subst r.
    apply Z.eqb_neq in Hk0.
    unfold handle_get_channel_info. rewrite Hk.
    unfold get_channel_info_data, delete_channel_btn, channel_confirm_delete,
      handle_delete_channel, SwitchTo, ChannelActions.get_channel,
      ChannelActions.delete_channel, db.
    unfold_manager. simpl.
    unfold dict_get. rewrite lookup_singleton_eq. simpl. rewrite Hf. simpl.
    destruct (List.find (channel_has k) (channels w)); simpl;
      rewrite lookup_insert_eq; simpl; rewrite Hk0; simpl; rewrite Hf; simpl;
      unfold added; simpl; rewrite <- !app_assoc; simpl;
      repeat split; try reflexivity; apply find_filter_out_channel.
Qed.

Lemma select_view_delete_witness :
  List.find (channel_has 555)
    (channels (world (snd ((handle_get_channel_info parse_555 "555";;
                            get_channel_info_data;;
                            delete_channel_btn;;
                            channel_confirm_delete) at_op_menu)))) = None.
Proof.
  exact (proj1 (proj2 (proj2 (proj2
    (proj2 (select_view_delete_channel parse_555 "555" at_op_menu)
       555 eq_refl ltac:(discriminate) eq_refl))))).
Defined.

(** X6. Bot list to toggle. Selecting a stored bot, showing its detail view
    and pressing the toggle button flips that bot: the getter leaves in the
    scratch the key the toggle handler reads. With the empty item id the
    toggle handler returns before any lookup and nothing is updated. *)
Theorem select_view_toggle_bot :
  forall (item_id : string) (e : Env),
    faults (world e) = [] ->
    let r := (handle_get_bot_info item_id;;
              get_bot_info_data;;
              handle_toggle_bot_op_status) e in
    (forall row : BotRow,
        item_id <> "" ->
        List.find (bot_has item_id) (bots (world e)) = Some row ->
        fst r = Ret tt /\
        stack (snd r) =
          {| ctx_state := BotMenu_menu;
             start_data := Some {[ "bot_username" := VStr item_id ]};
             dialog_data := {[ "bot_username" := VStr item_id ]} |} :: stack e /\
        added e (snd r)
          [EvStart BotMenu_menu;
           EvSetData "bot_username" (VStr item_id); EvDb (GetBot (VStr item_id));
           EvDb (GetBot (VStr item_id));
           EvDb (UpdateBotStatus (toggled (bot_status row)) (VStr item_id));
           EvSwitchTo BotMenu_menu] /\
        List.find (bot_has item_id) (bots (world (snd r))) =
          Some (set_bot_status (toggled (bot_status row)) row)) /\
    (item_id = "" ->
        fst r = Ret tt /\
        added e (snd r)
          [EvStart BotMenu_menu;
           EvSetData "bot_username" (VStr ""); EvDb (GetBot (VStr ""))] /\
        world (snd r) = world e).
Proof.
  intros item_id [s w t] Hf r. simpl in Hf. subst r. split.
  - intros row Hne Hrow. simpl in Hrow. apply String.eqb_neq in Hne.
    unfold handle_get_bot_info, get_bot_info_data, handle_toggle_bot_op_status,
      BotActions.get_bot, BotActions.update_bot_status, db.
    unfold_manager. simpl.
    unfold dict_get. rewrite lookup_singleton_eq. simpl. rewrite Hf. simpl.
    rewrite Hrow. simpl. rewrite lookup_insert_eq. simpl. rewrite Hne. simpl.
    rewrite Hf. simpl. rewrite Hrow. simpl. rewrite Hf. simpl.
    unfold added. simpl. rewrite <- !app_assoc. simpl.
    repeat split; try reflexivity.
    rewrite find_update_bot_rows, Hrow. reflexivity.
  - intros ->.
    unfold handle_get_bot_info, get_bot_info_data, handle_toggle_bot_op_status,
      BotActions.get_bot, db.
    unfold_manager. simpl.
    unfold dict_get. rewrite lookup_singleton_eq. simpl. rewrite Hf. simpl.
    destruct (List.find (bot_has "") (bots w)); simpl;
      rewrite lookup_insert_eq; simpl;
      unfold added; simpl; rewrite <- !app_assoc; simpl;
      repeat split; reflexivity.
Qed.

Lemma select_view_toggle_bot_witness :
  List.find (bot_has "helper")
    (bots (world (snd ((handle_get_bot_info "helper";;
                        get_bot_info_data;;
                        handle_toggle_bot_op_status) at_op_menu)))) =
    Some (sample_bot "helper" "True").
Proof.
  exact (proj2 (proj2 (proj2
    (proj1 (select_view_toggle_bot "helper" at_op_menu eq_refl)
       (sample_bot "helper" "False") ltac:(discriminate) eq_refl)))).
Defined.

(** ** The toggle under storage failures *)

(** X7. Status toggle when the storage fails. Whether the lookup raises or
    the update raises, the handler returns normally, nothing is persisted
    (no row is changed), and the dialog is switched to the detail view all
    the same. *)
Theorem toggle_storage_failure_changes_no_row :
  forall (e : Env) (c : Context) (rest : list Context) (fs : list bool),
    stack e = c :: rest ->
    (forall k : Z,
        group (ctx_state c) = ChannelMenu ->
        dict_get (dialog_data c) "channel_id" = VInt k -> k <> 0 ->
        (faults (world e) = true :: fs ->
           handle_toggle_channel_op_status e =
             (Ret tt,
              mk_env (with_state ChannelMenu_menu c :: rest) (with_faults fs (world e))
                (trace e ++ [EvDb (GetChannel (VInt k)); EvSwitchTo ChannelMenu_menu]))) /\
        (forall row,
           faults (world e) = false :: true :: fs ->
           List.find (channel_has k) (channels (world e)) = Some row ->
           handle_toggle_channel_op_status e =
             (Ret tt,
              mk_env (with_state ChannelMenu_menu c :: rest) (with_faults fs (world e))
                (trace e ++ [EvDb (GetChannel (VInt k));
                             EvDb (UpdateChannelStatus (toggled (channel_status row)) (VInt k));
                             EvSwitchTo ChannelMenu_menu])))) /\
    (forall u : string,
        group (ctx_state c) = BotMenu ->
        dict_get (dialog_data c) "bot_username" = VStr u -> u <> "" ->
        (faults (world e) = true :: fs ->
           handle_toggle_bot_op_status e =
             (Ret tt,
              mk_env (with_state BotMenu_menu c :: rest) (with_faults fs (world e))
                (trace e ++ [EvDb (GetBot (VStr u)); EvSwitchTo BotMenu_menu]))) /\
        (forall row,
           faults (world e) = false :: true :: fs ->
           List.find (bot_has u) (bots (world e)) = Some row ->
           handle_toggle_bot_op_status e =
             (Ret tt,
              mk_env (with_state BotMenu_menu c :: rest) (with_faults fs (world e))
                (trace e ++ [EvDb (GetBot (VStr u));
                             EvDb (UpdateBotStatus (toggled (bot_status row)) (VStr u));
                             EvSwitchTo BotMenu_menu])))).
Proof.
  intros [s w t] c rest fs Hs. simpl in Hs. subst s. split.
  - intros k Hg Hk Hk0. apply Z.eqb_neq in Hk0. split.
    + simpl. intros Hf.
      unfold handle_toggle_channel_op_status, ChannelActions.get_channel, db.
      unfold_manager. simpl. rewrite Hk. simpl. rewrite Hk0. simpl.
      rewrite Hf. simpl. rewrite Hg. simpl.
      unfold mk_env, with_state. rewrite <- !app_assoc. reflexivity.
    + simpl. intros row Hf Hrow.
      unfold handle_toggle_channel_op_status, ChannelActions.get_channel,
        ChannelActions.update_channel_status, db.
      unfold_manager. simpl. rewrite Hk. simpl. rewrite Hk0. simpl.
      rewrite Hf. simpl. rewrite Hrow. simpl. rewrite Hg. simpl.
      unfold mk_env, with_state. rewrite <- !app_assoc. reflexivity.
  - intros u Hg Hk Hk0. apply String.eqb_neq in Hk0. split.
    + simpl. intros Hf.
      unfold handle_toggle_bot_op_status, BotActions.get_bot, db.
      unfold_manager. simpl. rewrite Hk. simpl. rewrite Hk0. simpl.
      rewrite Hf. simpl. rewrite Hg. simpl.
      unfold mk_env, with_state. rewrite <- !app_assoc. reflexivity.
    + simpl. intros row Hf Hrow.
      unfold handle_toggle_bot_op_status, BotActions.get_bot,
        BotActions.update_bot_status, db.
      unfold_manager. simpl. rewrite Hk. simpl. rewrite Hk0. simpl.
      rewrite Hf. simpl. rewrite Hrow. simpl. rewrite Hg. simpl.
      unfold mk_env, with_state. rewrite <- !app_assoc. reflexivity.
Qed.

Lemma toggle_storage_failure_witness :
  channels (world (snd (handle_toggle_channel_op_status
                          (storage_failing [true] (at_channel_menu "True"))))) =
    [sample_channel 555 "True"] /\
  bots (world (snd (handle_toggle_bot_op_status
                      (storage_failing [false; true] (at_bot_menu "True"))))) =
    [sample_bot "helper" "True"].
Proof.
  split.
  - rewrite (proj1 (proj1 (toggle_storage_failure_changes_no_row
                             (storage_failing [true] (at_channel_menu "True")) _ _ []
                             eq_refl)
                      555 eq_refl eq_refl ltac:(discriminate)) eq_refl).
    reflexivity.
  - rewrite (proj2 (proj2 (toggle_storage_failure_changes_no_row
                             (storage_failing [false; true] (at_bot_menu "True")) _ _ []
                             eq_refl)
                      "helper" eq_refl eq_refl ltac:(discriminate))
               (sample_bot "helper" "True") eq_refl eq_refl).
    reflexivity.
Defined.

(** ** The bot flow *)

(** X8. Bot name step with incomplete data: when the handle or the URL is
    missing from the scratch (or empty), a text makes the handler set the
    discriminator to "error" and end the flow to the main OP menu; no
    database call is made and the world is unchanged. *)
Theorem name_step_without_collected_data :
  forall (e : Env) (c : Context) (rest : list Context) (message : Message) (t : string),
    stack e = c :: rest ->
    nonempty_text message = Some t ->
    truthy (dict_get (dialog_data c) "bot_username") = false \/
    truthy (dict_get (dialog_data c) "bot_url") = false ->
    handle_bot_name_input message e =
      (Ret tt,
       mk_env (fresh_context OPMenu_menu :: rest) (world e)
         (trace e ++ [EvSetData "msg_type" (VStr "error"); EvDone; EvStart OPMenu_menu])).
Proof.
  intros [s w tr] c rest message t Hs Ht Hmiss. simpl in Hs. subst s.
  unfold handle_bot_name_input. rewrite Ht. unfold_manager. simpl.
  assert (Hor : negb (truthy (dict_get (dialog_data c) "bot_username"))
                || negb (truthy (dict_get (dialog_data c) "bot_url")) = true).
  { destruct Hmiss as [-> | ->]; simpl; [reflexivity | apply orb_true_r]. }
  rewrite Hor. simpl.
  unfold mk_env, fresh_context. rewrite <- !app_assoc. reflexivity.
Qed.

Lemma name_step_without_url_witness :
  handle_bot_name_input (text_message "Helper") at_name_step_without_url =
    (Ret tt,
     mk_env [fresh_context OPMenu_menu; fresh_context OPMenu_menu] (sample_world [] [])
       [EvSetData "msg_type" (VStr "error"); EvDone; EvStart OPMenu_menu]).
Proof.
  exact (name_step_without_collected_data at_name_step_without_url _ _
           (text_message "Helper") "Helper" eq_refl eq_refl (or_intror eq_refl)).
Defined.

Ltac read_scratch :=
  unfold dict_get;
  repeat first [ rewrite lookup_insert_eq
               | rewrite lookup_insert_ne by discriminate ];
  simpl.

(** X9. A whole bot registration. From the username step, with the storage
    answering and a handle (the text stripped of whitespace and leading
    "@") that is not empty and not stored yet: the username, then either
    the default-URL button or a text whose stripped form is not empty, then
    the display name make exactly one [add_bot] call, with the stripped
    name, the handle and the URL ("https://t.me/" followed by the handle
    for the button), and the flow ends in the main OP menu. *)
Theorem bot_registration_flow :
  forall (str_dict : channel_dict -> string) (e : Env) (c : Context) (rest : list Context)
         (m1 m2 m3 : Message) (t1 t2 t3 : string),
    stack e = c :: rest ->
    group (ctx_state c) = AddBotState ->
    faults (world e) = [] ->
    nonempty_text m1 = Some t1 ->
    nonempty_text m2 = Some t2 ->
    nonempty_text m3 = Some t3 ->
    let handle := PyStr.lstrip_at (PyStr.strip t1) in
    handle <> "" ->
    PyStr.strip t2 <> "" ->
    List.find (bot_has handle) (bots (world e)) = None ->
    let registered (url : string) :=
      (Ret tt,
       mk_env (fresh_context OPMenu_menu :: rest)
         (with_bots
            (bots (world e) ++
               [{| bot_name := PyStr.strip t3; bot_username := handle;
                   bot_status := new_status (world e); bot_url := url |}])
            (world e))
         (trace e ++
          [EvDb (GetBot (VStr handle));
           EvSetData "bot_username" (VStr handle); EvSwitchTo AddBotState_get_bot_link;
           EvSetData "bot_url" (VStr url); EvSwitchTo AddBotState_get_bot_name;
           EvDb (AddBot (PyStr.strip t3) (VStr handle) (VStr url));
           EvDone; EvStart OPMenu_menu])) in
    (handle_bot_username_input m1;;
     handle_default_bot_url str_dict;;
     handle_bot_name_input m3) e = registered ("https://t.me/" +:+ handle) /\
    (handle_bot_username_input m1;;
     handle_bot_url_input m2;;
     handle_bot_name_input m3) e = registered (PyStr.strip t2).
Proof.
  intros str_dict [s w tr] c rest m1 m2 m3 t1 t2 t3 Hs Hg Hf Ht1 Ht2 Ht3
    handle Hne Hurl Hnew registered.
  simpl in *. subst s.
  apply String.eqb_neq in Hne. apply String.eqb_neq in Hurl.
  assert (Hdef : String.eqb ("https://t.me/" +:+ handle) "" = false) by reflexivity.
  split.
  - unfold handle_bot_username_input, handle_default_bot_url, handle_bot_name_input.
    rewrite Ht1, Ht3. fold handle.
    unfold BotActions.get_bot, BotActions.add_bot, db. unfold_manager. simpl.
    rewrite Hf. simpl. rewrite Hnew. simpl. rewrite Hg. simpl.
    read_scratch. rewrite Hne. simpl.
    read_scratch. rewrite Hne. rewrite ?Hdef. simpl.
    rewrite Hf. simpl. rewrite Hnew. simpl.
    unfold registered, mk_env, fresh_context. rewrite <- !app_assoc. reflexivity.
  - unfold handle_bot_username_input, handle_bot_url_input, handle_bot_name_input.
    rewrite Ht1, Ht2, Ht3. fold handle.
    unfold BotActions.get_bot, BotActions.add_bot, db. unfold_manager. simpl.
    rewrite Hf. simpl. rewrite Hnew. simpl. rewrite Hg. simpl.
    read_scratch. rewrite Hne, Hurl. simpl.
    rewrite Hf. simpl. rewrite Hnew. simpl.
    unfold registered, mk_env, fresh_context. rewrite <- !app_assoc. reflexivity.
Qed.

Lemma bot_registration_witness :
  bots (world (snd ((handle_bot_username_input (text_message " @@helper ");;
                     handle_default_bot_url (fun _ => "");;
                     handle_bot_name_input (text_message "Helper")) at_username_step))) =
    [{| bot_name := "Helper"; bot_username := "helper"; bot_status := "True";
        bot_url := "https://t.me/helper" |}].
Proof.
  rewrite (proj1 (bot_registration_flow (fun _ => "") at_username_step _ _
                    (text_message " @@helper ") (text_message "x") (text_message "Helper")
                    " @@helper " "x" "Helper"
                    eq_refl eq_refl eq_refl eq_refl eq_refl eq_refl
                    ltac:(intros H; vm_compute in H; discriminate H)
                    ltac:(intros H; vm_compute in H; discriminate H)
                    eq_refl)).
  reflexivity.
Defined.

(** ** The channel flow *)

(** X10. A whole channel registration. From the forward step, with the
    storage answering: a message forwarded from a chat that is not stored
    yet, followed by any non-empty text, makes exactly one [add_channel]
    call, with the chat id, the chat's full name or "Unnamed Channel", its
    username or the empty string, and the stripped text as URL (the text is
    not validated); the flow ends in the main OP menu. *)
Theorem channel_registration_flow :
  forall (e : Env) (c : Context) (rest : list Context) (m1 m2 : Message)
         (chat : Chat) (t2 : string),
    stack e = c :: rest ->
    group (ctx_state c) = AddChannelState ->
    faults (world e) = [] ->
    forward_from_chat m1 = Some chat ->
    List.find (channel_has (chat_id chat)) (channels (world e)) = None ->
    nonempty_text m2 = Some t2 ->
    let name := text_or (full_name chat) "Unnamed Channel" in
    let uname := text_or (username chat) "" in
    (handle_channel_forward m1;; handle_channel_url_input m2) e =
      (Ret tt,
       mk_env (fresh_context OPMenu_menu :: rest)
         (with_channels
            (channels (world e) ++
               [{| channel_id := chat_id chat; channel_name := name;
                   channel_username := uname; channel_status := new_status (world e);
                   channel_col4 := new_col4 (world e); channel_url := PyStr.strip t2 |}])
            (world e))
         (trace e ++
          [EvDb (GetChannel (VInt (chat_id chat)));
           EvSetData "channel_data"
             (VDict {| cd_channel_name := name; cd_channel_id := chat_id chat;
                       cd_channel_username := uname |});
           EvSwitchTo AddChannelState_get_channel_link;
           EvDb (AddChannel (chat_id chat) name uname (PyStr.strip t2));
           EvDone; EvStart OPMenu_menu])).
Proof.
  intros [s w tr] c rest m1 m2 chat t2 Hs Hg Hf Hfw Hnew Ht2 name uname.
  simpl in *. subst s.
  unfold handle_channel_forward, handle_channel_url_input. rewrite Hfw, Ht2.
  fold name. fold uname.
  unfold ChannelActions.get_channel, ChannelActions.add_channel, db. unfold_manager.
  simpl. rewrite Hf. simpl. rewrite Hnew. simpl. rewrite Hg. simpl.
  read_scratch. rewrite Hf. simpl. rewrite Hnew. simpl.
  unfold mk_env, fresh_context. rewrite <- !app_assoc. reflexivity.
Qed.

Lemma channel_registration_witness :
  channels (world (snd ((handle_channel_forward (forwarded_from 777);;
                         handle_channel_url_input (text_message " https://t.me/new "))
                          at_forward_step))) =
    [sample_channel 555 "True";
     {| channel_id := 777; channel_name := "Chan"; channel_username := "chan";
        channel_status := "True"; channel_col4 := "";
        channel_url := "https://t.me/new" |}].
Proof.
  rewrite (channel_registration_flow at_forward_step _ _ (forwarded_from 777)
             (text_message " https://t.me/new ")
             {| chat_id := 777; full_name := Some "Chan"; username := Some "chan" |}
             " https://t.me/new "
             eq_refl eq_refl eq_refl eq_refl eq_refl eq_refl).
  reflexivity.
Defined.

(** ** Discriminators and the windows that show them *)

(** X11. A step that succeeds never resets the discriminator. So after a
    message without text and then a valid new username at the username
    step, the flow is in the URL state with the discriminator still
    "error_format", for which the URL window shows its
    wrong-link-format text although no link was sent yet. *)
Theorem stale_discriminator_survives_success :
  forall (e : Env) (c : Context) (rest : list Context) (bad good : Message) (t : string),
    stack e = c :: rest ->
    group (ctx_state c) = AddBotState ->
    faults (world e) = [] ->
    nonempty_text bad = None ->
    nonempty_text good = Some t ->
    List.find (bot_has (PyStr.lstrip_at (PyStr.strip t))) (bots (world e)) = None ->
    let e1 := snd (handle_bot_username_input good e) in
    let e2 := snd ((handle_bot_username_input bad;; handle_bot_username_input good) e) in
    scratch e1 "msg_type" = scratch e "msg_type" /\
    current_state e2 = Some AddBotState_get_bot_link /\
    fst (get_add_bot_data e2) = Ret {[ "msg_type" := VStr "error_format" ]} /\
    window_case AddBotState_get_bot_link !! "error_format" =
      Some "❌ Неправильный формат ссылки!".
Proof.
  intros [s w tr] c rest bad good t Hs Hg Hf Hbad Hgood Hnew e1 e2.
  simpl in *. subst s. subst e1 e2.
  unfold handle_bot_username_input. rewrite Hbad, Hgood.
  unfold get_add_bot_data, BotActions.get_bot, db, scratch. unfold_manager. simpl.
  rewrite Hf. simpl. rewrite Hnew. simpl. rewrite Hg. simpl.
  repeat split.
  - rewrite lookup_insert_ne by discriminate. reflexivity.
  - rewrite lookup_insert_ne by discriminate. rewrite lookup_insert_eq. reflexivity.
Qed.

Lemma stale_discriminator_witness :
  fst (get_add_bot_data
         (snd ((handle_bot_username_input photo_message;;
                handle_bot_username_input (text_message "helper")) at_username_step))) =
    Ret {[ "msg_type" := VStr "error_format" ]}.
Proof.
  exact (proj1 (proj2 (proj2 (stale_discriminator_survives_success
           at_username_step _ _ photo_message (text_message "helper") "helper"
           eq_refl eq_refl eq_refl eq_refl eq_refl eq_refl)))).
Defined.

(** X12. Input of the wrong shape and the window it is answered in. For
    every window with a message input, a message of the wrong shape makes
    its handler write one variant into the discriminator and stay; the
    [Case] of that window has a text for the variant in every window but
    the channel URL window, whose [Case] has no "error_format" entry. *)
Theorem wrong_shape_variant_and_window :
  forall (st : State) (h : Message -> M unit)
         (e : Env) (c : Context) (rest : list Context) (message : Message),
    message_input st = Some h ->
    stack e = c :: rest ->
    ctx_state c = st ->
    wrong_shape st message ->
    exists variant : string,
      h message e = reprompt variant c rest e /\
      (window_case st !! variant = None <-> st = AddChannelState_get_channel_link).
Proof.
  intros st h [s w tr] c rest message Hh Hs Hst Hw. simpl in Hs. subst s.
  destruct st; simpl in Hh; try discriminate Hh; injection Hh as <-; simpl in Hw.
  - exists "not_forwarded". split.
    + unfold handle_channel_forward. rewrite Hw. reflexivity.
    + split; [vm_compute; discriminate | discriminate].
  - exists "error_format". split.
    + unfold handle_channel_url_input. rewrite Hw. reflexivity.
    + split; [reflexivity | intros _; vm_compute; reflexivity].
  - exists "error_format". split.
    + unfold handle_bot_name_input. rewrite Hw. reflexivity.
    + split; [vm_compute; discriminate | discriminate].
  - exists "error_format". split.
    + unfold handle_bot_username_input. rewrite Hw. reflexivity.
    + split; [vm_compute; discriminate | discriminate].
  - exists "error_format". split.
    + unfold handle_bot_url_input. rewrite Hw. reflexivity.
    + split; [vm_compute; discriminate | discriminate].
Qed.

Lemma wrong_shape_window_witness :
  exists variant : string,
    handle_channel_url_input photo_message at_url_step =
      reprompt variant
        {| ctx_state := AddChannelState_get_channel_link; start_data := None;
           dialog_data := {[ "channel_data" := VDict stashed_555 ]} |}
        [fresh_context OPMenu_menu] at_url_step /\
    window_case AddChannelState_get_channel_link !! variant = None.
Proof.
  destruct (wrong_shape_variant_and_window AddChannelState_get_channel_link
              handle_channel_url_input at_url_step _ _ photo_message
              eq_refl eq_refl eq_refl eq_refl) as [variant [Hrun Hwin]].
  exists variant. split; [exact Hrun | apply Hwin; reflexivity].
Defined.

(** X13. Existence check when the storage fails. At the forward step and at
    the username step, a failing lookup makes the handler set the
    discriminator to "error" and stay where it is, with nothing stashed
    and no row touched; the [Case] of neither window has an "error"
    entry. *)
Theorem existence_check_failure_stays_with_error :
  forall (e : Env) (c : Context) (rest : list Context) (fs : list bool),
    stack e = c :: rest ->
    faults (world e) = true :: fs ->
    let stay (call : db_call) :=
      (Ret tt,
       mk_env
         (with_dialog_data (<["msg_type" := VStr "error"]> (dialog_data c)) c :: rest)
         (with_faults fs (world e))
         (trace e ++ [EvDb call; EvSetData "msg_type" (VStr "error")])) in
    (forall (message : Message) (chat : Chat),
        forward_from_chat message = Some chat ->
        handle_channel_forward message e = stay (GetChannel (VInt (chat_id chat)))) /\
    (forall (message : Message) (t : string),
        nonempty_text message = Some t ->
        handle_bot_username_input message e =
          stay (GetBot (VStr (PyStr.lstrip_at (PyStr.strip t))))) /\
    window_case AddChannelState_get_channel_data !! "error" = None /\
    window_case AddBotState_get_bot_username !! "error" = None.
Proof.
  intros [s w tr] c rest fs Hs Hf stay. simpl in *. subst s.
  split; [|split; [|split; vm_compute; reflexivity]].
  - intros message chat Hfw.
    unfold handle_channel_forward. rewrite Hfw.
    unfold ChannelActions.get_channel, db. unfold_manager. simpl. rewrite Hf. simpl.
    unfold stay, mk_env, with_dialog_data. rewrite <- !app_assoc. reflexivity.
  - intros message t Ht.
    unfold handle_bot_username_input. rewrite Ht.
    unfold BotActions.get_bot, db. unfold_manager. simpl. rewrite Hf. simpl.
    unfold stay, mk_env, with_dialog_data. rewrite <- !app_assoc. reflexivity.
Qed.

Lemma existence_check_failure_witness :
  current_state
    (snd (handle_channel_forward (forwarded_from 777)
            (storage_failing [true] at_forward_step))) =
    Some AddChannelState_get_channel_data /\
  scratch
    (snd (handle_bot_username_input (text_message "helper")
            (storage_failing [true] at_username_step))) "bot_username" = None.
Proof.
  split.
  - rewrite (proj1 (existence_check_failure_stays_with_error
                      (storage_failing [true] at_forward_step) _ _ [] eq_refl eq_refl)
               (forwarded_from 777)
               {| chat_id := 777; full_name := Some "Chan"; username := Some "chan" |}
               eq_refl).
    reflexivity.
  - rewrite (proj1 (proj2 (existence_check_failure_stays_with_error
                      (storage_failing [true] at_username_step) _ _ [] eq_refl eq_refl))
               (text_message "helper") "helper" eq_refl).
    reflexivity.
Defined.

(** ** Cancelling a deletion *)

(** X14. The two "No" buttons differ. The bot one switches the dialog back
    to the detail state and keeps its context, start data included. The
    channel one starts the detail state anew without data, on top of the
    confirmation dialog; in that context the detail getter raises on
    reading the start data, before any database call. *)
Theorem cancel_delete_channel_loses_the_key :
  forall (e : Env) (c : Context) (rest : list Context),
    stack e = c :: rest ->
    (group (ctx_state c) = BotMenu ->
       bot_cancel_delete e =
         (Ret tt,
          mk_env (with_state BotMenu_menu c :: rest) (world e)
            (trace e ++ [EvSwitchTo BotMenu_menu]))) /\
    (let e1 := snd (channel_cancel_delete e) in
     fst (channel_cancel_delete e) = Ret tt /\
     stack e1 = fresh_context ChannelMenu_menu :: c :: rest /\
     get_channel_info_data e1 = (Raise Exception, e1)).
Proof.
  intros [s w tr] c rest Hs. simpl in Hs. subst s. split.
  - intros Hg. unfold bot_cancel_delete, SwitchTo. unfold_manager. simpl.
    rewrite Hg. simpl. reflexivity.
  - simpl. repeat split.
Qed.

Lemma cancel_delete_witness :
  fst (get_channel_info_data
         (snd (channel_cancel_delete (snd (delete_channel_btn (at_channel_menu "True"))))))
    = Raise Exception.
Proof.
  destruct (proj2 (cancel_delete_channel_loses_the_key
                     (snd (delete_channel_btn (at_channel_menu "True"))) _ _ eq_refl))
    as (_ & _ & Hraise).
  rewrite Hraise. reflexivity.
Defined.

(** ** A handle that strips to nothing *)

(** X15. A username text made only of whitespace and "@" (its handle is
    empty) is accepted by the username step, which stashes the empty handle
    and advances, when no bot with the empty handle is stored. From there
    the default-URL button does nothing at all, and after a typed URL the
    name step ends the flow with "error" without calling [add_bot]: such a
    bot cannot be registered, and the world is unchanged. *)
Theorem empty_handle_is_accepted_then_rejected :
  forall (str_dict : channel_dict -> string) (e : Env) (c : Context) (rest : list Context)
         (m1 m2 m3 : Message) (t1 t2 t3 : string),
    stack e = c :: rest ->
    group (ctx_state c) = AddBotState ->
    faults (world e) = [] ->
    nonempty_text m1 = Some t1 ->
    nonempty_text m2 = Some t2 ->
    nonempty_text m3 = Some t3 ->
    PyStr.lstrip_at (PyStr.strip t1) = "" ->
    List.find (bot_has "") (bots (world e)) = None ->
    let e1 := snd (handle_bot_username_input m1 e) in
    current_state e1 = Some AddBotState_get_bot_link /\
    scratch e1 "bot_username" = Some (VStr "") /\
    handle_default_bot_url str_dict e1 = (Ret tt, e1) /\
    (handle_bot_url_input m2;; handle_bot_name_input m3) e1 =
      (Ret tt,
       mk_env (fresh_context OPMenu_menu :: rest) (world e)
         (trace e ++
          [EvDb (GetBot (VStr "")); EvSetData "bot_username" (VStr "");
           EvSwitchTo AddBotState_get_bot_link;
           EvSetData "bot_url" (VStr (PyStr.strip t2));
           EvSwitchTo AddBotState_get_bot_name;
           EvSetData "msg_type" (VStr "error"); EvDone; EvStart OPMenu_menu])).
Proof.
  intros str_dict [s w tr] c rest m1 m2 m3 t1 t2 t3 Hs Hg Hf Ht1 Ht2 Ht3 Hempty Hnew e1.
  simpl in *. subst s. subst e1.
  unfold handle_bot_username_input, handle_default_bot_url, handle_bot_url_input,
    handle_bot_name_input.
  rewrite Ht1, Ht2, Ht3, Hempty.
  unfold BotActions.get_bot, db, scratch. unfold_manager. simpl.
  rewrite Hf. simpl. rewrite Hnew. simpl. rewrite Hg. simpl.
  read_scratch.
  repeat split.
  unfold mk_env, fresh_context. rewrite <- !app_assoc. reflexivity.
Qed.

Lemma empty_handle_witness :
  (handle_bot_url_input (text_message "https://t.me/x");;
   handle_bot_name_input (text_message "Helper"))
    (snd (handle_bot_username_input (text_message " @@ ") at_username_step)) =
  (Ret tt,
   mk_env [fresh_context OPMenu_menu; fresh_context OPMenu_menu] (sample_world [] [])
     [EvDb (GetBot (VStr "")); EvSetData "bot_username" (VStr "");
      EvSwitchTo AddBotState_get_bot_link;
      EvSetData "bot_url" (VStr "https://t.me/x");
      EvSwitchTo AddBotState_get_bot_name;
      EvSetData "msg_type" (VStr "error"); EvDone; EvStart OPMenu_menu]).
Proof.
  exact (proj2 (proj2 (proj2 (empty_handle_is_accepted_then_rejected (fun _ => "")
           at_username_step _ _
           (text_message " @@ ") (text_message "https://t.me/x") (text_message "Helper")
           " @@ " "https://t.me/x" "Helper"
           eq_refl eq_refl eq_refl eq_refl eq_refl eq_refl eq_refl eq_refl)))).
Defined.

(** ** Registration of the dialogs *)

(** X16. [dialog_register] includes the three menu dialogs only: a state
    belongs to an included dialog exactly when it is a state of the main
    menu or of a detail dialog. Hence no window that has a message input,
    that is no step of the two registration flows, belongs to a dialog this
    function includes, the states the two add buttons start among them. *)
Theorem registered_states_are_the_menus :
  forall st : State,
    (registered st <->
       group st = OPMenu \/ group st = ChannelMenu \/ group st = BotMenu) /\
    (forall h : Message -> M unit, message_input st = Some h -> ~ registered st).
Proof.
  intros st.
  assert (Hreg : registered st <->
                 group st = OPMenu \/ group st = ChannelMenu \/ group st = BotMenu).
  { split.
    - intros [d [Hd Hst]]. unfold dialog_register in Hd. simpl in Hd.
      destruct Hd as [<-|[<-|[<-|[]]]]; simpl in Hst;
        repeat (destruct Hst as [<-|Hst]; [simpl; auto|]); destruct Hst.
    - intros Hg. unfold registered, dialog_register.
      destruct st; simpl in Hg;
        try (destruct Hg as [Hg|[Hg|Hg]]; discriminate Hg).
      + exists op_management_dialog. simpl. auto.
      + exists bot_management_dialog. simpl. auto.
      + exists bot_management_dialog. simpl. auto.
      + exists channel_management_dialog. simpl. auto.
      + exists channel_management_dialog. simpl. auto. }
  split; [exact Hreg|].
  intros h Hh Hr. apply Hreg in Hr.
  destruct st; simpl in Hh; try discriminate Hh;
    simpl in Hr; destruct Hr as [Hr|[Hr|Hr]]; discriminate Hr.
Qed.

Lemma add_flows_not_registered_witness :
  ~ registered AddChannelState_get_channel_data /\
  ~ registered AddBotState_get_bot_username.
Proof.
  split.
  - exact (proj2 (registered_states_are_the_menus AddChannelState_get_channel_data)
             handle_channel_forward eq_refl).
  - exact (proj2 (registered_states_are_the_menus AddBotState_get_bot_username)
             handle_bot_username_input eq_refl).
Defined.
